(** * pycares: verification of the c-ares build step ([setup_cares.py])

    The script extends distutils' [build_ext] command.  It either asks
    pkg-config for a system libcares or builds the bundled copy with
    make / vcbuild.bat, and then configures the compiler object.

    The development has three layers:
    - [Py]: the Python string operations the script relies on;
    - an effect monad over an abstract host (subprocesses, file system),
      recording every observable action in a trace;
    - the functions of the script, one definition per source function. *)

From Stdlib Require Import ZArith Ascii String DecimalString.
From stdpp Require Import base option list strings gmap.

Local Open Scope string_scope.
Local Open Scope list_scope.
Local Open Scope Z_scope.

(** ** Python string operations *)

Module Py.

(** [sep.join(parts)] *)
Fixpoint join (sep : string) (parts : list string) : string :=
  match parts with
  | [] => EmptyString
  | [x] => x
  | x :: rest => x +:+ sep +:+ join sep rest
  end.

(** The characters of a string, as Python iterates over a [str]. *)
Fixpoint chars (s : string) : list string :=
  match s with
  | EmptyString => []
  | String c t => String c EmptyString :: chars t
  end.

(** [c in set] for a one-character test against a set given as a string. *)
Fixpoint mem_char (c : ascii) (set : string) : bool :=
  match set with
  | EmptyString => false
  | String d t => if Ascii.eqb c d then true else mem_char c t
  end.

(** [s.lstrip(set)]: drops every leading character that belongs to [set]. *)
Fixpoint lstrip (set : string) (s : string) : string :=
  match s with
  | EmptyString => EmptyString
  | String c t => if mem_char c set then lstrip set t else s
  end.

(** [s.rstrip(set)]: drops every trailing character that belongs to [set]. *)
Fixpoint rstrip (set : string) (s : string) : string :=
  match s with
  | EmptyString => EmptyString
  | String c t =>
      match rstrip set t with
      | EmptyString => if mem_char c set then EmptyString else String c EmptyString
      | t' => String c t'
      end
  end.

(** [str.isspace] on one ASCII character: TAB, LF, VT, FF, CR, the four
    separators FS..US, and the blank. *)
Definition isspace (c : ascii) : bool :=
  let n := nat_of_ascii c in
  ((9 <=? n)%nat && (n <=? 13)%nat) || ((28 <=? n)%nat && (n <=? 32)%nat).

(** [s.split()] with no argument: maximal runs of non-blank characters.
    [cur] is the run being read, kept in reverse. *)
Fixpoint split_aux (cur : list ascii) (s : string) : list string :=
  let flush := match cur with
               | [] => []
               | _ => [string_of_list_ascii (rev cur)]
               end in
  match s with
  | EmptyString => flush
  | String c t =>
      if isspace c then flush ++ split_aux [] t
      else split_aux (c :: cur) t
  end.

Definition split (s : string) : list string := split_aux [] s.

(** [s.startswith(p)] *)
Definition startswith (p s : string) : bool := String.prefix p s.

(** [needle in hay] *)
Fixpoint contains (needle hay : string) : bool :=
  String.prefix needle hay ||
  match hay with
  | EmptyString => false
  | String _ t => contains needle t
  end.

(** [s[-2:]]: the last two characters, or all of [s] when it is shorter. *)
Definition last2 (s : string) : string :=
  String.substring (String.length s - 2) 2 s.

(** ['%d' % n] *)
Definition fmt_d (n : Z) : string := NilZero.string_of_int (Z.to_int n).

(** Truthiness of [x] for [x] a string or [None]. *)
Definition truthy (x : option string) : bool :=
  match x with
  | Some (String _ _) => true
  | _ => false
  end.

End Py.

(** ** The host: what the script observes of the machine it runs on *)

Definition ENOENT : Z := 2.

(** The [args] of [subprocess.Popen]: an argument list, or one string
    (the script passes a string together with [shell=True]). *)
Inductive cmdline : Type :=
| ArgList (argv : list string)
| ArgStr (line : string).

Record popen_request : Type := {
  req_args : cmdline;
  req_stdin_pipe : bool;
  req_cwd : option string;
  req_env : option (gmap string string);
  req_shell : bool
}.

(** A subprocess either runs to completion, leaving a return code and the
    text of its two output streams (already decoded), or [Popen] fails with
    an [OSError] carrying an errno. *)
Inductive popen_outcome : Type :=
| Completed (returncode : Z) (stdout stderr : string)
| Failed (errno : Z).

Record host : Type := {
  world : Type;
  popen : popen_request -> world -> popen_outcome * world;
  path_exists : string -> world -> bool;
  sys_platform : string;
  os_environ : gmap string string;
  os_sep : string
}.

(** ** Exceptions, log records and the trace *)

Inductive exit_arg : Type :=
| ExitText (msg : string)
| ExitWords (words : list string).

Inductive exn : Type :=
| DistutilsError (msg : string)
| OSError (errno : Z)
| SystemExit (arg : exit_arg)
| IndexError
| AttributeError.

Inductive exn_class : Type :=
| ClsDistutilsError | ClsOSError | ClsSystemExit | ClsIndexError | ClsAttributeError.

Definition class_of (e : exn) : exn_class :=
  match e with
  | DistutilsError _ => ClsDistutilsError
  | OSError _ => ClsOSError
  | SystemExit _ => ClsSystemExit
  | IndexError => ClsIndexError
  | AttributeError => ClsAttributeError
  end.

Inductive result (A : Type) : Type :=
| Ok (a : A)
| Raise (e : exn).
Arguments Ok {A} a.
Arguments Raise {A} e.

Inductive level : Type := Debug | Info | Warn | Error.

(** One constructor per [log] call site of the script. *)
Inductive log_msg : Type :=
| LogPlainMakeOnBSD
| LogBuilding
| LogNeedsCompile
| LogNoNeed
| LogLibraries (libs : list string)
| LogStdout (command : string) (words : list string)
| LogStderr (command : string) (words : list string)
| LogReturncode (command : string) (rc : Z)
| LogExcType (c : exn_class)
| LogDetected (pkg version : string).

Inductive stream : Type := Stdout | Stderr.

(** An argument handed to a compiler method: the script passes both single
    names and whole lists. *)
Inductive pyarg : Type :=
| PStr (s : string)
| PList (l : list string).

(** The methods of the distutils compiler object that the script calls. *)
Inductive compiler_call : Type :=
| add_library (a : pyarg)
| add_library_dir (a : pyarg)
| add_include_dir (d : string)
| set_include_dirs (dirs : list string)
| set_runtime_library_dirs (dirs : list string)
| define_macro (name : string) (value : Z).

Record extension : Type := {
  extra_objects : list string;
  extra_link_args : list string
}.

(** The attributes of the command object ([self]) and of [self.compiler]
    that the script reads or assigns. *)
Record cares_build_ext : Type := {
  cares_clean_compile : Z;
  use_system_libcares : Z;
  libcares_version_required : string;
  compiler_type : string;
  dll_libraries : list string;
  force : Z;
  cares_lib : option string;
  extensions : list extension
}.

Inductive event : Type :=
| EvPopen (r : popen_request)
| EvWrite (fd : stream) (text : string)
| EvExists (path : string)
| EvLog (lvl : level) (m : log_msg)
| EvCompiler (c : compiler_call)
| EvBuildExtensions (self : cares_build_ext).

Definition set_dll_libraries (l : list string) (o : cares_build_ext) : cares_build_ext :=
  {| cares_clean_compile := cares_clean_compile o;
     use_system_libcares := use_system_libcares o;
     libcares_version_required := libcares_version_required o;
     compiler_type := compiler_type o;
     dll_libraries := l;
     force := force o;
     cares_lib := cares_lib o;
     extensions := extensions o |}.

Definition set_force (v : Z) (o : cares_build_ext) : cares_build_ext :=
  {| cares_clean_compile := cares_clean_compile o;
     use_system_libcares := use_system_libcares o;
     libcares_version_required := libcares_version_required o;
     compiler_type := compiler_type o;
     dll_libraries := dll_libraries o;
     force := v;
     cares_lib := cares_lib o;
     extensions := extensions o |}.

Definition set_cares_lib (p : string) (o : cares_build_ext) : cares_build_ext :=
  {| cares_clean_compile := cares_clean_compile o;
     use_system_libcares := use_system_libcares o;
     libcares_version_required := libcares_version_required o;
     compiler_type := compiler_type o;
     dll_libraries := dll_libraries o;
     force := force o;
     cares_lib := Some p;
     extensions := extensions o |}.

Definition set_extensions (l : list extension) (o : cares_build_ext) : cares_build_ext :=
  {| cares_clean_compile := cares_clean_compile o;
     use_system_libcares := use_system_libcares o;
     libcares_version_required := libcares_version_required o;
     compiler_type := compiler_type o;
     dll_libraries := dll_libraries o;
     force := force o;
     cares_lib := cares_lib o;
     extensions := l |}.

Definition set_extra_objects (l : list string) (x : extension) : extension :=
  {| extra_objects := l; extra_link_args := extra_link_args x |}.

Definition set_extra_link_args (l : list string) (x : extension) : extension :=
  {| extra_objects := extra_objects x; extra_link_args := l |}.

(** The double-quote character, as a string. *)
Definition dq : string := String "034" EmptyString.

(** ** The effect monad

    A computation takes the state (the host's world and the command object)
    and returns a value or a raised exception, the new state, and the events
    it produced, oldest first.  A raised exception keeps the state and the
    events reached so far. *)

Section Script.

Variable H : host.

Record state : Type := {
  st_world : world H;
  st_self : cares_build_ext
}.

Definition M (A : Type) : Type := state -> result A * state * list event.

Definition ret {A} (a : A) : M A := fun s => (Ok a, s, []).

Definition raise {A} (e : exn) : M A := fun s => (Raise e, s, []).

Definition bind {A B} (m : M A) (k : A -> M B) : M B :=
  fun s =>
    match m s with
    | (Ok a, s1, t1) => let '(r, s2, t2) := k a s1 in (r, s2, t1 ++ t2)
    | (Raise e, s1, t1) => (Raise e, s1, t1)
    end.

(** [try: m  except: handler] *)
Definition try_catch {A} (m : M A) (handler : exn -> M A) : M A :=
  fun s =>
    match m s with
    | (Ok a, s1, t1) => (Ok a, s1, t1)
    | (Raise e, s1, t1) => let '(r, s2, t2) := handler e s1 in (r, s2, t1 ++ t2)
    end.

Definition emit (e : event) : M unit := fun s => (Ok tt, s, [e]).

Definition attr {A} (f : cares_build_ext -> A) : M A :=
  fun s => (Ok (f (st_self s)), s, []).

Definition assign (f : cares_build_ext -> cares_build_ext) : M unit :=
  fun s => (Ok tt, {| st_world := st_world s; st_self := f (st_self s) |}, []).

Definition when (b : bool) (m : M unit) : M unit := if b then m else ret tt.

Notation "'do' x <- m ; k" := (bind m (fun x => k))
  (at level 10, x name, m at level 100, k at level 200).
Notation "'do' ' p <- m ; k" := (bind m (fun x => let 'p := x in k))
  (at level 10, p pattern, m at level 100, k at level 200).
Notation "m ;; k" := (bind m (fun _ => k))
  (at level 100, k at level 200, right associativity).

(** *** Host primitives *)

(** [subprocess.Popen(...)] followed by waiting for the child and reading
    its streams. *)
Definition run_process (r : popen_request) : M (Z * string * string) :=
  fun s =>
    match popen H r (st_world s) with
    | (Completed rc out err, w) =>
        (Ok (rc, out, err), {| st_world := w; st_self := st_self s |}, [EvPopen r])
    | (Failed errno, w) =>
        (Raise (OSError errno), {| st_world := w; st_self := st_self s |}, [EvPopen r])
    end.

(** [os.path.exists(p)] *)
Definition os_path_exists (p : string) : M bool :=
  fun s => (Ok (path_exists H p (st_world s)), s, [EvExists p]).

(** [os.path.join(a, b)] for the relative, non-empty components the script
    joins: the two names around the platform's separator. *)
Definition os_path_join (a b : string) : string := a +:+ os_sep H +:+ b.

(** *** [exec_process] and [exec_make] *)

(** The keyword arguments forwarded to [Popen]. *)
Record kwargs : Type := {
  cwd : option string;
  env : option (gmap string string);
  shell : bool
}.

(** [" ".join(cmdline)]: over the arguments of a list, over the characters
    of a string. *)
Definition cmdline_join (c : cmdline) : string :=
  match c with
  | ArgList argv => Py.join " " argv
  | ArgStr line => Py.join " " (Py.chars line)
  end.

(** [cmdline[0]] *)
Definition cmdline_first (c : cmdline) : option string :=
  match c with
  | ArgList argv => head argv
  | ArgStr line => head (Py.chars line)
  end.

Definition not_present_msg (tool : string) : string :=
  dq +:+ tool +:+ dq +:+ " is not present on this system".

Definition return_value_msg (returncode : Z) (c : cmdline) (stderr : string) : string :=
  "Got return value " +:+ Py.fmt_d returncode +:+ " while executing " +:+ dq
    +:+ cmdline_join c +:+ dq +:+ ", stderr output was:" +:+ String "010" EmptyString
    +:+ Py.rstrip (String "010" EmptyString) stderr.

Definition exec_process (c : cmdline) (silent catch_enoent : bool) (kw : kwargs)
  : M string :=
  do ' (returncode, stdout, stderr) <-
    try_catch
      (do ' (returncode, stdout, stderr) <-
         run_process {| req_args := c; req_stdin_pipe := true;
                        req_cwd := cwd kw; req_env := env kw;
                        req_shell := shell kw |};
       when (negb silent)
         (emit (EvWrite Stdout stdout) ;; emit (EvWrite Stderr stderr)) ;;
       ret (returncode, stdout, stderr))
      (fun e =>
         match e with
         | OSError errno =>
             if (errno =? ENOENT) && catch_enoent then
               match cmdline_first c with
               | Some tool => raise (DistutilsError (not_present_msg tool))
               | None => raise IndexError
               end
             else raise e
         | _ => raise e
         end);
  if negb (returncode =? 0) then
    raise (DistutilsError (return_value_msg returncode c stderr))
  else ret stdout.

Definition on_bsd : bool := Py.contains "bsd" (sys_platform H).

(** The candidate names, in the order [exec_make] tries them. *)
Definition makes : list string :=
  let makes := ["make"] in
  if on_bsd then "gmake" :: makes else makes.

(** The [for make in makes] loop of [exec_make], with the statement after
    the loop as its base case. *)
Fixpoint exec_make_from (candidates : list string) (c : list string)
    (silent : bool) (kw : kwargs) : M string :=
  match candidates with
  | [] => raise (DistutilsError (not_present_msg "make"))
  | make :: rest =>
      when (on_bsd && String.eqb make "make") (emit (EvLog Warn LogPlainMakeOnBSD)) ;;
      try_catch
        (exec_process (ArgList (make :: c)) silent false kw)
        (fun e =>
           match e with
           | OSError errno =>
               if negb (errno =? ENOENT) then raise e
               else exec_make_from rest c silent kw
           | _ => raise e
           end)
  end.

Definition exec_make (c : list string) (silent : bool) (kw : kwargs) : M string :=
  exec_make_from makes c silent kw.

(** *** [cares_build_ext.build_cares] *)

Definition cares_dir : string := os_path_join "deps" "c-ares".

(** [' '.join(x for x in (cflags, env.get('CFLAGS', None)) if x)] *)
Definition merged_cflags (environ : gmap string string) : string :=
  let cflags := "-fPIC" in
  Py.join " "
    (omap (fun x : option string => if Py.truthy x then x else None)
          [Some cflags; environ !! "CFLAGS"]).

Definition build_env : gmap string string :=
  let env := os_environ H in
  <["CFLAGS" := merged_cflags env]> env.

Definition build (win32_msvc : bool) : M unit :=
  emit (EvLog Info LogBuilding) ;;
  if win32_msvc then
    exec_process (ArgStr "cmd.exe /C vcbuild.bat") true true
      {| cwd := Some cares_dir; env := Some build_env; shell := true |} ;;
    ret tt
  else
    exec_make ["libcares.a"] true
      {| cwd := Some cares_dir; env := Some build_env; shell := false |} ;;
    ret tt.

Definition clean (win32_msvc : bool) : M unit :=
  if win32_msvc then
    exec_process (ArgStr "cmd.exe /C vcbuild.bat clean") true true
      {| cwd := Some cares_dir; env := None; shell := true |} ;;
    ret tt
  else
    exec_make ["clean"] true
      {| cwd := Some cares_dir; env := None; shell := false |} ;;
    ret tt.

Definition build_cares : M unit :=
  do ctype <- attr compiler_type;
  let win32_msvc := String.eqb ctype "msvc" in
  do flag <- attr cares_clean_compile;
  when (negb (flag =? 0)) (clean win32_msvc) ;;
  do lib <- attr cares_lib;
  match lib with
  | None => raise AttributeError
  | Some lib =>
      do present <- os_path_exists lib;
      if negb present then
        emit (EvLog Info LogNeedsCompile) ;;
        build win32_msvc
      else emit (EvLog Info LogNoNeed)
  end.

(** *** The pkg-config helpers *)

(** What [call] leaves in the [Popen] object it returns. *)
Record pipe : Type := {
  pipe_stdout : list string;
  pipe_stderr : list string;
  pipe_returncode : Z
}.

Definition call (command : string) (opt : option string) : M pipe :=
  do ' (returncode, out, err) <-
    run_process {| req_args := ArgStr command; req_stdin_pipe := false;
                   req_cwd := None; req_env := None; req_shell := true |};
  let stdout := Py.split out in
  let stdout := match opt with
                | Some o => map (Py.lstrip o) stdout
                | None => stdout
                end in
  let stderr := Py.split err in
  emit (EvLog Debug (LogStdout command stdout)) ;;
  emit (EvLog Debug (LogStderr command stderr)) ;;
  if negb (returncode =? 0) then
    emit (EvLog Debug (LogReturncode command returncode)) ;;
    raise (SystemExit (ExitWords stderr))
  else
    ret {| pipe_stdout := stdout; pipe_stderr := stderr;
           pipe_returncode := returncode |}.

Definition version_check_command (pkg version : string) : string :=
  "pkg-config --print-errors --exists " +:+ dq +:+ pkg +:+ " >= " +:+ version +:+ dq.

Definition not_found_msg (pkg version : string) : string :=
  "Error: " +:+ pkg +:+ " >= " +:+ version +:+ " not found".

Definition pkg_config_version_check (pkg version : string) : M unit :=
  try_catch
    (call (version_check_command pkg version) None ;; ret tt)
    (fun e =>
       emit (EvLog Error (LogExcType (class_of e))) ;;
       raise (SystemExit (ExitText (not_found_msg pkg version)))) ;;
  emit (EvLog Debug (LogDetected pkg version)).

Definition parse_command (opt pkg : string) : string :=
  "pkg-config " +:+ opt +:+ " " +:+ pkg.

Definition pkg_config_parse (opt pkg : string) : M (list string) :=
  do p <- call (parse_command opt pkg) (Some (Py.last2 opt));
  ret (pipe_stdout p).

(** *** [cares_build_ext.build_extensions] *)

(** [self.extensions[0].<field> = ...] *)
Definition assign_extension0 (f : extension -> extension) : M unit :=
  do exts <- attr extensions;
  match exts with
  | [] => raise IndexError
  | x :: rest => assign (set_extensions (f x :: rest))
  end.

Definition compiler_do (c : compiler_call) : M unit := emit (EvCompiler c).

Definition nonempty {A} (l : list A) : bool := (0 <? length l)%nat.

(** The branch taken when [use_system_libcares == 1]. *)
Definition use_system : M unit :=
  do version <- attr libcares_version_required;
  pkg_config_version_check "libcares" version ;;
  do runtime_library_dirs <- pkg_config_parse "--libs-only-L" "libcares";
  do include_dirs <- pkg_config_parse "--cflags-only-I" "libcares";
  do library_dirs <- pkg_config_parse "--libs-only-L" "libcares";
  do libraries <- pkg_config_parse "--libs-only-l" "libcares";
  let include_dirs := include_dirs ++ ["/usr/include"] in
  let include_dirs := include_dirs ++ [os_path_join cares_dir "src"] in
  emit (EvLog Debug (LogLibraries libraries)) ;;
  when (nonempty libraries) (compiler_do (add_library (PList libraries))) ;;
  when (nonempty library_dirs) (compiler_do (add_library_dir (PList library_dirs))) ;;
  when (nonempty include_dirs) (compiler_do (set_include_dirs include_dirs)) ;;
  when (nonempty runtime_library_dirs)
    (compiler_do (set_runtime_library_dirs runtime_library_dirs)).

(** The platform-dependent libraries added at the end. *)
Definition platform_libraries (ctype : string) : M unit :=
  if Py.startswith "linux" (sys_platform H) then
    compiler_do (add_library (PStr "rt"))
  else if String.eqb (sys_platform H) "win32" then
    when (String.eqb ctype "msvc")
      (assign_extension0 (set_extra_link_args ["/NODEFAULTLIB:libcmt"]) ;;
       compiler_do (add_library (PStr "advapi32"))) ;;
    compiler_do (add_library (PStr "iphlpapi")) ;;
    compiler_do (add_library (PStr "psapi")) ;;
    compiler_do (add_library (PStr "ws2_32"))
  else ret tt.

Definition artifact_name (ctype : string) : string :=
  if String.eqb ctype "msvc" then "cares.lib" else "libcares.a".

Definition build_extensions : M unit :=
  do system <- attr use_system_libcares;
  when (system =? 1) use_system ;;
  when (system =? 0) (compiler_do (define_macro "PYCARES_BUNDLED" 1)) ;;
  do ctype <- attr compiler_type;
  when (String.eqb ctype "mingw32")
    (do libs <- attr dll_libraries;
     assign (set_dll_libraries
               (filter (fun lib => negb (Py.startswith "msvcr" lib)) libs))) ;;
  do flag <- attr cares_clean_compile;
  assign (set_force flag) ;;
  assign (set_cares_lib (os_path_join cares_dir (artifact_name ctype))) ;;
  when (system =? 0) build_cares ;;
  when (String.eqb ctype "mingw32")
    (compiler_do (add_library_dir (PStr cares_dir)) ;;
     compiler_do (add_library (PStr "cares"))) ;;
  do lib <- attr cares_lib;
  match lib with
  | None => raise AttributeError
  | Some lib =>
      assign_extension0 (set_extra_objects [lib]) ;;
      compiler_do (add_include_dir (os_path_join cares_dir "src")) ;;
      platform_libraries ctype ;;
      do self <- attr id;
      emit (EvBuildExtensions self)
  end.

End Script.

Arguments st_world {H} s.
Arguments st_self {H} s.
Arguments ret {H A} a s.
Arguments raise {H A} e s.
Arguments bind {H A B} m k s.
Arguments try_catch {H A} m handler s.
Arguments emit {H} e s.
Arguments attr {H A} f s.
Arguments assign {H} f s.
Arguments when {H} b m s.

(** ** Reading the outcome of a run *)

Definition result_of {H A} (x : result A * state H * list event) : result A := x.1.1.
Definition state_of {H A} (x : result A * state H * list event) : state H := x.1.2.
Definition trace_of {H A} (x : result A * state H * list event) : list event := x.2.

(** The subprocess requests of a trace, oldest first. *)
Definition popen_requests (t : list event) : list popen_request :=
  omap (fun e => match e with EvPopen r => Some r | _ => None end) t.

(** The request [exec_process] hands to [Popen]. *)
Definition exec_request (c : cmdline) (kw : kwargs) : popen_request :=
  {| req_args := c; req_stdin_pipe := true;
     req_cwd := cwd kw; req_env := env kw; req_shell := shell kw |}.

(** The request [call] hands to [Popen]. *)
Definition call_request (command : string) : popen_request :=
  {| req_args := ArgStr command; req_stdin_pipe := false;
     req_cwd := None; req_env := None; req_shell := true |}.

(** ** Vocabulary for the statements *)

(** The state after a subprocess has left the world at [w]. *)
Definition moved {H} (s : state H) (w : world H) : state H :=
  {| st_world := w; st_self := st_self s |}.

(** What [exec_process] echoes when it is not silent. *)
Definition written (silent : bool) (stdout stderr : string) : list event :=
  if silent then [] else [EvWrite Stdout stdout; EvWrite Stderr stderr].

(** The warning [exec_make] logs before it runs plain [make] on a BSD. *)
Definition plain_make_warning (H : host) (make : string) : list event :=
  if on_bsd H && String.eqb make "make" then [EvLog Warn LogPlainMakeOnBSD] else [].

(** The words [call] keeps of a stream: split on blanks, then stripped. *)
Definition stripped_words (opt : option string) (text : string) : list string :=
  match opt with
  | Some o => map (Py.lstrip o) (Py.split text)
  | None => Py.split text
  end.

(** Every candidate, tried in order from world [w], is reported missing:
    [Popen] fails with [ENOENT] on each of them. *)
Fixpoint all_missing (H : host) (candidates c : list string) (kw : kwargs)
    (w : world H) : bool :=
  match candidates with
  | [] => true
  | make :: rest =>
      match popen H (exec_request (ArgList (make :: c)) kw) w with
      | (Failed errno, w') => (errno =? ENOENT) && all_missing H rest c kw w'
      | (Completed _ _ _, _) => false
      end
  end.

(** The error is the "not present" message for some tool. *)
Definition reports_not_present {A} (r : result A) : Prop :=
  exists tool, r = Raise (DistutilsError (not_present_msg tool)).

(** The first request [clean] makes: the batch file under MSVC, otherwise
    the first candidate of [exec_make] with the target [clean]. *)
Definition clean_request (H : host) (ctype : string) : popen_request :=
  if String.eqb ctype "msvc" then
    {| req_args := ArgStr "cmd.exe /C vcbuild.bat clean"; req_stdin_pipe := true;
       req_cwd := Some (cares_dir H); req_env := None; req_shell := true |}
  else
    {| req_args := ArgList [if on_bsd H then "gmake" else "make"; "clean"];
       req_stdin_pipe := true;
       req_cwd := Some (cares_dir H); req_env := None; req_shell := false |}.

(** The compiler method calls of a trace, oldest first. *)
Definition compiler_calls (t : list event) : list compiler_call :=
  omap (fun e => match e with EvCompiler c => Some c | _ => None end) t.

(** The path of the bundled artifact for a compiler type. *)
Definition artifact_path (H : host) (ctype : string) : string :=
  os_path_join H (cares_dir H) (artifact_name ctype).

(** The bundled source include directory. *)
Definition bundled_include_dir (H : host) : string :=
  os_path_join H (cares_dir H) "src".

(** The command object after the MinGW step of [build_extensions]. *)
Definition configured_libs (o : cares_build_ext) : cares_build_ext :=
  if String.eqb (compiler_type o) "mingw32" then
    set_dll_libraries
      (filter (fun lib => negb (Py.startswith "msvcr" lib)) (dll_libraries o)) o
  else o.

(** The command object [build_extensions] leaves when it runs to its end:
    what it assigns on the way, applied to the object it started from. *)
Definition configured (H : host) (o : cares_build_ext) : cares_build_ext :=
  let ctype := compiler_type o in
  let libs :=
    if String.eqb ctype "mingw32" then
      filter (fun lib => negb (Py.startswith "msvcr" lib)) (dll_libraries o)
    else dll_libraries o in
  let link (x : extension) :=
    if negb (Py.startswith "linux" (sys_platform H))
       && String.eqb (sys_platform H) "win32" && String.eqb ctype "msvc"
    then set_extra_link_args ["/NODEFAULTLIB:libcmt"] x else x in
  {| cares_clean_compile := cares_clean_compile o;
     use_system_libcares := use_system_libcares o;
     libcares_version_required := libcares_version_required o;
     compiler_type := ctype;
     dll_libraries := libs;
     force := cares_clean_compile o;
     cares_lib := Some (artifact_path H ctype);
     extensions :=
       match extensions o with
       | [] => []
       | x :: rest => link (set_extra_objects [artifact_path H ctype] x) :: rest
       end |}.

(** A computation that leaves the command object as it found it. *)
Definition keeps_self {H A} (m : M H A) : Prop :=
  forall s, st_self (state_of (m s)) = st_self s.

(** [post m s Q]: when [m], run from [s], returns normally, its value, final
    state and trace satisfy [Q]. *)
Definition post {H A} (m : M H A) (s : state H)
    (Q : A -> state H -> list event -> Prop) : Prop :=
  match m s with
  | (Ok a, s', t) => Q a s' t
  | (Raise _, _, _) => True
  end.

(** The trace ends with event [last]. *)
Definition ends_with (last : event) (t : list event) : Prop :=
  exists before, t = before ++ [last].

(** The trace ends with event [last], and [x] occurs before it. *)
Definition ends_after (x last : event) (t : list event) : Prop :=
  exists before, t = before ++ [last] /\ x ∈ before.

(** ** Concrete machines and command objects *)

(** A host whose answers do not depend on what ran before: every request
    is answered by [run], every path by [present]. *)
Definition scripted_host (platform sep : string) (environ : gmap string string)
    (run : popen_request -> popen_outcome) (present : string -> bool) : host :=
  {| world := unit;
     popen := fun r w => (run r, w);
     path_exists := fun p _ => present p;
     sys_platform := platform;
     os_environ := environ;
     os_sep := sep |}.

(** The state a run starts from. *)
Definition start {H} (w : world H) (self : cares_build_ext) : state H :=
  {| st_world := w; st_self := self |}.

(** A freshly initialised command object, as [initialize_options] and the
    option parser leave it. *)
Definition fresh_command (system clean : Z) (ctype : string) : cares_build_ext :=
  {| cares_clean_compile := clean;
     use_system_libcares := system;
     libcares_version_required := "1.11";
     compiler_type := ctype;
     dll_libraries := ["msvcr90"; "user32"; "msvcrt"; "kernel32"];
     force := 0;
     cares_lib := None;
     extensions := [ {| extra_objects := []; extra_link_args := [] |} ] |}.

(** A command object as [build_extensions] hands it to [build_cares]. *)
Definition prepared_command (clean : Z) (ctype : string) (lib : string) : cares_build_ext :=
  {| cares_clean_compile := clean;
     use_system_libcares := 0;
     libcares_version_required := "1.11";
     compiler_type := ctype;
     dll_libraries := [];
     force := clean;
     cares_lib := Some lib;
     extensions := [ {| extra_objects := []; extra_link_args := [] |} ] |}.

(** A stand-in for pkg-config with libcares registered: the [--exists]
    query succeeds or complains according to [meets], the three flag
    queries print the given texts. *)
Definition pkg_config_stub (meets : bool) (cflags_I libs_L libs_l : string)
    (r : popen_request) : popen_outcome :=
  match req_args r with
  | ArgStr line =>
      if String.prefix "pkg-config --print-errors --exists " line then
        if meets then Completed 0 EmptyString EmptyString
        else Completed 1 EmptyString
               ("Requested 'libcares >= 1.11' but version of c-ares is 1.10"
                  +:+ String "010" EmptyString)
      else if String.eqb line "pkg-config --cflags-only-I libcares" then
        Completed 0 (cflags_I +:+ String "010" EmptyString) EmptyString
      else if String.eqb line "pkg-config --libs-only-L libcares" then
        Completed 0 (libs_L +:+ String "010" EmptyString) EmptyString
      else if String.eqb line "pkg-config --libs-only-l libcares" then
        Completed 0 (libs_l +:+ String "010" EmptyString) EmptyString
      else Completed 127 EmptyString "sh: command not found"
  | ArgList _ => Completed 0 EmptyString EmptyString
  end.

(** A host on which everything is there and every command succeeds. *)
Definition healthy_host (platform : string) : host :=
  scripted_host platform "/" ∅
    (fun _ => Completed 0 EmptyString EmptyString)
    (fun _ => true).

(** A host on which every command exits with status 2 and a complaint. *)
Definition failing_host : host :=
  scripted_host "linux" "/" ∅
    (fun _ => Completed 2 EmptyString
                ("make: *** No rule to make target" +:+ String "010" (String "010" EmptyString)))
    (fun _ => false).

(** A machine on which [Popen] always fails with [ENOENT]. *)
Definition bare_host (platform : string) : host :=
  scripted_host platform "/" ∅ (fun _ => Failed ENOENT) (fun _ => false).

(** A BSD machine without GNU make: [gmake] is missing, everything else
    runs and succeeds. *)
Definition bsd_without_gmake : host :=
  scripted_host "freebsd12" "/" ∅
    (fun r =>
       match req_args r with
       | ArgList (tool :: _) =>
           if String.eqb tool "gmake" then Failed ENOENT
           else Completed 0 "done" EmptyString
       | _ => Completed 0 EmptyString EmptyString
       end)
    (fun _ => false).

(** A Linux machine with [CFLAGS=-O2] in the environment and no artifact
    built yet. *)
Definition host_with_cflags : host :=
  scripted_host "linux" "/" (<["CFLAGS" := "-O2"]> (<["HOME" := "/root"]> ∅))
    (fun _ => Completed 0 EmptyString EmptyString)
    (fun _ => false).

(** A Linux machine with libcares 1.10 installed (below the required 1.11). *)
Definition old_libcares_host : host :=
  scripted_host "linux" "/" ∅
    (pkg_config_stub false "-I/usr/include" "-L/usr/lib" "-lcares")
    (fun _ => false).

(** A Linux machine with libcares 1.12 installed. *)
Definition new_libcares_host : host :=
  scripted_host "linux" "/" ∅
    (pkg_config_stub true "-I/usr/include" "-L/usr/lib" "-lcares")
    (fun _ => false).

(** A Linux machine whose libcares needs a second library, liblzma. *)
Definition lzma_host : host :=
  scripted_host "linux" "/" ∅
    (pkg_config_stub true "-I/usr/include" "-L/usr/lib" "-lcares -llzma")
    (fun _ => false).

(** A Windows machine with the artifact already built. *)
Definition windows_host : host :=
  scripted_host "win32" "\" ∅
    (fun _ => Completed 0 EmptyString EmptyString)
    (fun _ => true).

(** ** Vocabulary for the further properties *)

(** Every character of [s] belongs to [set]. *)
Fixpoint all_in (set s : string) : bool :=
  match s with
  | EmptyString => true
  | String c t => Py.mem_char c set && all_in set t
  end.


(** [s] does not end with a character of [set]. *)
Fixpoint ends_outside (set s : string) : bool :=
  match s with
  | EmptyString => true
  | String c EmptyString => negb (Py.mem_char c set)
  | String _ t => ends_outside set t
  end.

(** [s] holds no blank character. *)
Fixpoint no_space (s : string) : bool :=
  match s with
  | EmptyString => true
  | String c t => negb (Py.isspace c) && no_space t
  end.

(** The newline, as a string. *)
Definition newline : string := String "010" EmptyString.

(** Every event a computation can produce satisfies [P]. *)
Definition emits {H A} (P : event -> Prop) (m : M H A) : Prop :=
  forall s e, e ∈ trace_of (m s) -> P e.

(** The events of work in the bundled tree: subprocesses started with a
    piped stdin inside [deps/c-ares], existence checks, log lines. *)
Definition build_event (H : host) (e : event) : Prop :=
  match e with
  | EvPopen r => req_stdin_pipe r = true /\ req_cwd r = Some (cares_dir H)
  | EvExists _ | EvLog _ _ => True
  | EvWrite _ _ | EvCompiler _ | EvBuildExtensions _ => False
  end.


(** What [build_extensions] emits for the bundled-copy macro. *)
Definition macro_events (system : Z) : list event :=
  if system =? 0 then [EvCompiler (define_macro "PYCARES_BUNDLED" 1)] else [].

(** What [build_extensions] emits for MinGW after the library is there. *)
Definition mingw_events (H : host) (ctype : string) : list event :=
  if String.eqb ctype "mingw32" then
    [EvCompiler (add_library_dir (PStr (cares_dir H)));
     EvCompiler (add_library (PStr "cares"))]
  else [].

(** What [platform_libraries] emits. *)
Definition platform_events (H : host) (ctype : string) : list event :=
  if Py.startswith "linux" (sys_platform H) then [EvCompiler (add_library (PStr "rt"))]
  else if String.eqb (sys_platform H) "win32" then
    (if String.eqb ctype "msvc" then [EvCompiler (add_library (PStr "advapi32"))] else [])
      ++ [EvCompiler (add_library (PStr "iphlpapi"));
          EvCompiler (add_library (PStr "psapi"));
          EvCompiler (add_library (PStr "ws2_32"))]
  else [].

(** The command object [build_extensions] hands to [build_cares]. *)
Definition prepared (H : host) (o : cares_build_ext) : cares_build_ext :=
  set_cares_lib (artifact_path H (compiler_type o))
    (set_force (cares_clean_compile o) (configured_libs o)).

(** The outcome [x] with the events [t] put in front of its trace. *)
Definition prepend {H A} (t : list event) (x : result A * state H * list event)
    : result A * state H * list event :=
  let '(r, s, t') := x in (r, s, t ++ t').

(** ** [cares_build_ext.initialize_options]

    After distutils' own initialisation both flags are cleared and the
    required version is taken from the importing script
    ([__main__.libcares_version_required], here [main_version]).  The
    attributes distutils owns are left as they are in [o]. *)
Definition initialize_options (main_version : string) (o : cares_build_ext)
    : cares_build_ext :=
  {| cares_clean_compile := 0;
     use_system_libcares := 0;
     libcares_version_required := main_version;
     compiler_type := compiler_type o;
     dll_libraries := dll_libraries o;
     force := force o;
     cares_lib := cares_lib o;
     extensions := extensions o |}.

(** A machine on which starting any program is refused (EACCES). *)
Definition locked_host : host :=
  scripted_host "linux" "/" ∅ (fun _ => Failed 13) (fun _ => false).

(** A BSD machine with both make programs, on which every command succeeds
    and prints a line on each stream. *)
Definition chatty_bsd_host : host :=
  scripted_host "openbsd7" "/" ∅
    (fun _ => Completed 0 ("out" +:+ newline) ("warning" +:+ newline))
    (fun _ => false).

(** A Linux machine without the artifact on which every command succeeds. *)
Definition building_host : host :=
  scripted_host "linux" "/" ∅
    (fun _ => Completed 0 EmptyString EmptyString)
    (fun _ => false).

(** A Linux machine whose libcares headers live in a directory with a
    blank in its name. *)
Definition spaced_host : host :=
  scripted_host "linux" "/" ∅
    (pkg_config_stub true "-I/opt/my libs/include" "-L/usr/lib" "-lcares")
    (fun _ => false).

(** A command object with no extension to build. *)
Definition command_without_extensions : cares_build_ext :=
  {| cares_clean_compile := 0;
     use_system_libcares := 0;
     libcares_version_required := "1.11";
     compiler_type := "unix";
     dll_libraries := [];
     force := 0;
     cares_lib := None;
     extensions := [] |}.

(** A command object with two extensions, the second already carrying
    link settings of its own. *)
Definition command_with_two_extensions (ctype : string) : cares_build_ext :=
  {| cares_clean_compile := 1;
     use_system_libcares := 0;
     libcares_version_required := "1.11";
     compiler_type := ctype;
     dll_libraries := ["msvcr90"; "user32"];
     force := 0;
     cares_lib := None;
     extensions := [ {| extra_objects := ["old.o"]; extra_link_args := ["-s"] |};
                     {| extra_objects := ["other.o"]; extra_link_args := ["-g"] |} ] |}.

(** ** The class body of [cares_build_ext]: the option tables

    [user_options = build_ext.user_options] binds a name to the list object
    of the base class; [extend] then changes that object.  Lists live in a
    heap; a class attribute is the address of a list. *)

(** An element of an option table: a [(long, short, help)] tuple of
    [user_options], or a name of [boolean_options]. *)
Inductive table_entry : Type :=
| OptionTuple (long : string) (short : option string) (help : string)
| OptionName (name : string).

(** The two table attributes of a command class. *)
Record option_tables : Type := {
  user_options : positive;
  boolean_options : positive
}.

(** [lst.extend(more)] on the list at address [at_]. *)
Definition list_extend (at_ : positive) (more : list table_entry)
    (heap : gmap positive (list table_entry)) : option (gmap positive (list table_entry)) :=
  match heap !! at_ with
  | Some l => Some (<[at_ := l ++ more]> heap)
  | None => None
  end.

Definition cares_user_options : list table_entry :=
  [ OptionTuple "cares-clean-compile" None "Clean c-ares tree before compilation";
    OptionTuple "use-system-libcares" None
      "Use the system provided libcares, instead of the bundled one" ].

Definition cares_boolean_options : list table_entry :=
  [ OptionName "cares-clean-compile"; OptionName "use-system-libcares" ].

(** The four statements of the class body about the tables, given the
    tables of [build_ext].  The result is the tables of the new class and
    the heap after the two [extend] calls. *)
Definition class_body (build_ext : option_tables)
    (heap : gmap positive (list table_entry))
    : option (option_tables * gmap positive (list table_entry)) :=
  let user_options_ := user_options build_ext in
  match list_extend user_options_ cares_user_options heap with
  | None => None
  | Some heap1 =>
      let boolean_options_ := boolean_options build_ext in
      match list_extend boolean_options_ cares_boolean_options heap1 with
      | None => None
      | Some heap2 =>
          Some ({| user_options := user_options_;
                   boolean_options := boolean_options_ |}, heap2)
      end
  end.

(** The tables of distutils' [build_ext] before the module is imported (two
    of its entries stand for all). *)
Definition distutils_tables : option_tables :=
  {| user_options := 1%positive; boolean_options := 2%positive |}.

Definition distutils_heap : gmap positive (list table_entry) :=
  <[1%positive := [OptionTuple "build-lib=" (Some "b") "directory for compiled extension modules";
                   OptionTuple "force" (Some "f") "forcibly build everything"]]>
    (<[2%positive := [OptionName "inplace"; OptionName "force"]]> ∅).

(** * Verification *)

(** ** The string operations on the literals of the script *)

Example join_ex : Py.join " " ["make"; "libcares.a"] = "make libcares.a".
Proof. reflexivity. Qed.

Example join_chars_ex : Py.join " " (Py.chars "cmd") = "c m d".
Proof. reflexivity. Qed.

Example lstrip_ex : Py.lstrip "-I" "-I/usr/include" = "/usr/include".
Proof. reflexivity. Qed.

Example rstrip_ex :
  Py.rstrip (String "010" EmptyString)
    ("a" +:+ String "010" "b" +:+ String "010" (String "010" EmptyString))
  = "a" +:+ String "010" "b".
Proof. reflexivity. Qed.

Example split_ex :
  Py.split ("  -lcares" +:+ String "009" "-lrt " +:+ String "010" EmptyString)
  = ["-lcares"; "-lrt"].
Proof. reflexivity. Qed.

Example last2_ex : Py.last2 "--cflags-only-I" = "-I".
Proof. reflexivity. Qed.

Example fmt_d_ex : (Py.fmt_d 0, Py.fmt_d 127, Py.fmt_d (-9)) = ("0", "127", "-9").
Proof. reflexivity. Qed.

Example contains_ex : Py.contains "bsd" "freebsd12" = true /\ Py.contains "bsd" "linux2" = false.
Proof. split; reflexivity. Qed.

(** ** Facts about the string operations *)

Section StringFacts.

Lemma prefix_append (x y : string) : String.prefix x (x +:+ y) = true.
Proof.
  induction x as [|c x IH]; simpl.
  - by destruct y.
  - destruct (ascii_dec c c); [exact IH | congruence].
Qed.

Lemma contains_unfold (x hay : string) :
  Py.contains x hay =
    String.prefix x hay ||
    match hay with
    | EmptyString => false
    | String _ t => Py.contains x t
    end.
Proof. by destruct hay. Qed.

Lemma contains_prefix (x y : string) : Py.contains x (x +:+ y) = true.
Proof. rewrite contains_unfold, prefix_append. reflexivity. Qed.

Lemma contains_append_r (x a b : string) :
  Py.contains x b = true -> Py.contains x (a +:+ b) = true.
Proof.
  intros Hb. induction a as [|c a IH]; [exact Hb|].
  change (String c a +:+ b) with (String c (a +:+ b)).
  rewrite contains_unfold, IH. apply orb_true_r.
Qed.

Lemma append_empty_r (x : string) : x +:+ EmptyString = x.
Proof.
  induction x as [|a x IH]; [reflexivity|].
  change (String a (x +:+ EmptyString) = String a x). by rewrite IH.
Qed.

Lemma contains_self (x : string) : Py.contains x x = true.
Proof.
  pose proof (contains_prefix x EmptyString) as Hp.
  by rewrite append_empty_r in Hp.
Qed.

End StringFacts.

(** ** Running one command: the equations of [exec_process] and [exec_make] *)

Section Commands.

Variable H : host.

(** [exec_process] makes exactly one request and then decides on its outcome. *)
Lemma exec_process_eq c silent catch_enoent kw (s : state H) :
  exec_process H c silent catch_enoent kw s =
    match popen H (exec_request c kw) (st_world s) with
    | (Completed returncode stdout stderr, w) =>
        (if returncode =? 0 then Ok stdout
         else Raise (DistutilsError (return_value_msg returncode c stderr)),
         moved s w,
         EvPopen (exec_request c kw) :: written silent stdout stderr)
    | (Failed errno, w) =>
        (Raise (if (errno =? ENOENT) && catch_enoent then
                  match cmdline_first c with
                  | Some tool => DistutilsError (not_present_msg tool)
                  | None => IndexError
                  end
                else OSError errno),
         moved s w,
         [EvPopen (exec_request c kw)])
    end.
Proof.
  unfold exec_process, bind, try_catch, run_process, when, written, moved.
  change {| req_args := c; req_stdin_pipe := true; req_cwd := cwd kw;
            req_env := env kw; req_shell := shell kw |}
    with (exec_request c kw).
  destruct (popen H (exec_request c kw) (st_world s)) as [[rc out err|errno] w].
  - destruct silent; simpl; destruct (rc =? 0); reflexivity.
  - simpl. destruct ((errno =? ENOENT) && catch_enoent); [|reflexivity].
    destruct (cmdline_first c); reflexivity.
Qed.

(** One turn of the loop of [exec_make]: the candidate is run; only when
    [Popen] reports [ENOENT] does the loop go on to the next candidate. *)
Lemma exec_make_from_cons make rest c silent kw (s : state H) :
  exec_make_from H (make :: rest) c silent kw s =
    match popen H (exec_request (ArgList (make :: c)) kw) (st_world s) with
    | (Completed returncode stdout stderr, w) =>
        (if returncode =? 0 then Ok stdout
         else Raise (DistutilsError
                       (return_value_msg returncode (ArgList (make :: c)) stderr)),
         moved s w,
         plain_make_warning H make
           ++ EvPopen (exec_request (ArgList (make :: c)) kw)
           :: written silent stdout stderr)
    | (Failed errno, w) =>
        if errno =? ENOENT then
          let '(r, s', t) := exec_make_from H rest c silent kw (moved s w) in
          (r, s', plain_make_warning H make
                    ++ EvPopen (exec_request (ArgList (make :: c)) kw) :: t)
        else
          (Raise (OSError errno), moved s w,
           plain_make_warning H make
             ++ [EvPopen (exec_request (ArgList (make :: c)) kw)])
    end.
Proof.
  cbn [exec_make_from]. unfold plain_make_warning, when, bind.
  destruct (on_bsd H && String.eqb make "make");
    cbn [emit ret]; unfold try_catch; rewrite exec_process_eq;
    (destruct (popen H _ (st_world _)) as [[rc out err|errno] w];
     [ destruct (rc =? 0); cbn [raise app]; rewrite ?app_nil_r; reflexivity
     | rewrite andb_false_r; destruct (errno =? ENOENT); cbn [negb raise app];
       [ destruct (exec_make_from H rest c silent kw _) as [[r s'] t]; reflexivity
       | rewrite ?app_nil_r; reflexivity ] ]).
Qed.

End Commands.

(** ** [exec_process] on a completed child *)

(** The three parts of the message can each be found in it. *)
Lemma return_value_msg_contains returncode c stderr :
  let msg := return_value_msg returncode c stderr in
  Py.contains (Py.fmt_d returncode) msg = true /\
  Py.contains (cmdline_join c) msg = true /\
  Py.contains (Py.rstrip (String "010" EmptyString) stderr) msg = true.
Proof.
  unfold return_value_msg. repeat split.
  - apply contains_append_r, contains_prefix.
  - do 4 apply contains_append_r. apply contains_prefix.
  - do 8 apply contains_append_r. apply contains_self.
Qed.

(** C1 -- When the subprocess run by [exec_process] exits with a nonzero
    return code, a [DistutilsError] is raised whose message is
    [Got return value <code> while executing "<command line joined by
    blanks>", stderr output was:] followed on the next line by the captured
    standard error without its trailing newlines, so it contains the return
    code, the joined command line and that text; on return code zero the
    captured standard output is returned. *)
Theorem exec_process_return_code (H : host) (c : cmdline) (silent catch_enoent : bool)
    (kw : kwargs) (s : state H) (returncode : Z) (stdout stderr : string) (w : world H) :
  popen H (exec_request c kw) (st_world s) = (Completed returncode stdout stderr, w) ->
  (returncode = 0 ->
     result_of (exec_process H c silent catch_enoent kw s) = Ok stdout) /\
  (returncode <> 0 ->
     exists msg,
       result_of (exec_process H c silent catch_enoent kw s) = Raise (DistutilsError msg) /\
       msg = "Got return value " +:+ Py.fmt_d returncode +:+ " while executing "
               +:+ dq +:+ cmdline_join c +:+ dq +:+ ", stderr output was:"
               +:+ String "010" EmptyString
               +:+ Py.rstrip (String "010" EmptyString) stderr /\
       Py.contains (Py.fmt_d returncode) msg = true /\
       Py.contains (cmdline_join c) msg = true /\
       Py.contains (Py.rstrip (String "010" EmptyString) stderr) msg = true).
Proof.
  intros Hrun. rewrite exec_process_eq, Hrun. unfold result_of; cbn [fst].
  split.
  - by intros ->.
  - intros Hne. apply Z.eqb_neq in Hne. rewrite Hne.
    exists (return_value_msg returncode c stderr).
    split; [reflexivity|]. split; [reflexivity|].
    apply return_value_msg_contains.
Qed.

Lemma exec_process_return_code_witness :
  popen failing_host
    (exec_request (ArgList ["make"; "libcares.a"])
       {| cwd := Some "deps/c-ares"; env := None; shell := false |}) tt
  = (Completed 2 EmptyString
       ("make: *** No rule to make target" +:+ String "010" (String "010" EmptyString)), tt) /\
  result_of
    (exec_process failing_host (ArgList ["make"; "libcares.a"]) true true
       {| cwd := Some "deps/c-ares"; env := None; shell := false |}
       (start (tt : world failing_host) (fresh_command 0 0 "unix")))
  = Raise (DistutilsError
      ("Got return value 2 while executing " +:+ dq +:+ "make libcares.a" +:+ dq
         +:+ ", stderr output was:" +:+ String "010" EmptyString
         +:+ "make: *** No rule to make target")).
Proof.
  split; [reflexivity|].
  destruct (exec_process_return_code failing_host (ArgList ["make"; "libcares.a"])
              true true {| cwd := Some "deps/c-ares"; env := None; shell := false |}
              (start (tt : world failing_host) (fresh_command 0 0 "unix"))
              2 EmptyString
              ("make: *** No rule to make target" +:+ String "010" (String "010" EmptyString))
              tt eq_refl) as [_ Hnz].
  destruct (Hnz ltac:(discriminate)) as (msg & Hres & Hmsg & _).
  rewrite Hres, Hmsg. reflexivity.
Defined.


(** ** The candidates of [exec_make] *)

Section Make.

Variable H : host.

Lemma popen_requests_app (t1 t2 : list event) :
  popen_requests (t1 ++ t2) = popen_requests t1 ++ popen_requests t2.
Proof. apply omap_app. Qed.

Lemma popen_requests_warning make : popen_requests (plain_make_warning H make) = [].
Proof. unfold plain_make_warning. by destruct (on_bsd H && String.eqb make "make"). Qed.

Lemma popen_requests_written silent stdout stderr :
  popen_requests (written silent stdout stderr) = [].
Proof. by destruct silent. Qed.

Lemma popen_requests_turn make r t :
  popen_requests (plain_make_warning H make ++ EvPopen r :: t) = r :: popen_requests t.
Proof. by rewrite popen_requests_app, popen_requests_warning. Qed.

(** The message about a failed command is never the "not present" one. *)
Lemma return_value_msg_not_missing returncode c stderr tool :
  return_value_msg returncode c stderr <> not_present_msg tool.
Proof.
  unfold return_value_msg, not_present_msg, dq.
  cbv [String.append]. discriminate.
Qed.

(** The loop ends in the "make is not present" error exactly when every
    candidate was reported missing. *)
Lemma exec_make_from_missing candidates c silent kw (s : state H) :
  result_of (exec_make_from H candidates c silent kw s)
    = Raise (DistutilsError (not_present_msg "make"))
  <-> all_missing H candidates c kw (st_world s) = true.
Proof.
  revert s. induction candidates as [|make rest IH]; intros s.
  - split; reflexivity.
  - rewrite exec_make_from_cons. cbn [all_missing].
    destruct (popen H _ (st_world s)) as [[rc out err|errno] w].
    + unfold result_of; cbn [fst]. split; [|discriminate].
      destruct (rc =? 0); [discriminate|].
      intros Heq.
      apply (f_equal (fun r : result string =>
                        match r with
                        | Raise (DistutilsError m) => m
                        | _ => EmptyString
                        end)) in Heq.
      by apply return_value_msg_not_missing in Heq.
    + destruct (errno =? ENOENT); cbn [andb].
      * specialize (IH (moved s w)).
        destruct (exec_make_from H rest c silent kw (moved s w)) as [[r s'] t].
        exact IH.
      * unfold result_of; cbn [fst]. split; discriminate.
Qed.

(** When every candidate is missing, each was attempted, in order. *)
Lemma exec_make_from_missing_tried candidates c silent kw (s : state H) :
  all_missing H candidates c kw (st_world s) = true ->
  map req_args (popen_requests (trace_of (exec_make_from H candidates c silent kw s)))
    = map (fun make => ArgList (make :: c)) candidates.
Proof.
  revert s. induction candidates as [|make rest IH]; intros s; [reflexivity|].
  rewrite exec_make_from_cons. cbn [all_missing].
  destruct (popen H _ (st_world s)) as [[rc out err|errno] w]; [discriminate|].
  destruct (errno =? ENOENT); [|discriminate]. cbn [andb]. intros Hrest.
  specialize (IH (moved s w) Hrest).
  destruct (exec_make_from H rest c silent kw (moved s w)) as [[r s'] t].
  unfold trace_of in *; cbn [snd] in *.
  rewrite popen_requests_turn. cbn [map]. by rewrite IH.
Qed.

End Make.

(** C6 -- On a platform whose name contains [bsd], [exec_make] first
    attempts [gmake]; [make] is attempted only when [gmake] is reported
    missing (ENOENT), so the first candidate that exists is the one whose
    outcome [exec_make] delivers.  On any other platform [make] is the only
    command attempted. *)
Theorem exec_make_candidate_order (H : host) (c : list string) (silent : bool)
    (kw : kwargs) (s : state H) :
  let run := exec_make H c silent kw s in
  let tried := map req_args (popen_requests (trace_of run)) in
  if Py.contains "bsd" (sys_platform H) then
    match popen H (exec_request (ArgList ("gmake" :: c)) kw) (st_world s) with
    | (Completed returncode stdout stderr, _) =>
        tried = [ArgList ("gmake" :: c)] /\
        result_of run =
          (if returncode =? 0 then Ok stdout
           else Raise (DistutilsError
                         (return_value_msg returncode (ArgList ("gmake" :: c)) stderr)))
    | (Failed errno, w) =>
        if errno =? ENOENT then
          tried = [ArgList ("gmake" :: c); ArgList ("make" :: c)] /\
          result_of run =
            match popen H (exec_request (ArgList ("make" :: c)) kw) w with
            | (Completed returncode stdout stderr, _) =>
                if returncode =? 0 then Ok stdout
                else Raise (DistutilsError
                              (return_value_msg returncode (ArgList ("make" :: c)) stderr))
            | (Failed errno', _) =>
                if errno' =? ENOENT then Raise (DistutilsError (not_present_msg "make"))
                else Raise (OSError errno')
            end
        else
          tried = [ArgList ("gmake" :: c)] /\ result_of run = Raise (OSError errno)
    end
  else
    tried = [ArgList ("make" :: c)].
Proof.
  cbn zeta. unfold exec_make, makes.
  change (Py.contains "bsd" (sys_platform H)) with (on_bsd H).
  destruct (on_bsd H).
  - rewrite exec_make_from_cons.
    destruct (popen H _ (st_world s)) as [[rc out err|errno] w].
    + unfold trace_of, result_of; cbn [fst snd].
      rewrite popen_requests_turn, popen_requests_written. by split.
    + destruct (errno =? ENOENT).
      * rewrite exec_make_from_cons. cbn [moved st_world].
        destruct (popen H _ w) as [[rc out err|errno'] w'].
        -- unfold trace_of, result_of; cbn [fst snd].
           rewrite !popen_requests_turn, popen_requests_written. by split.
        -- destruct (errno' =? ENOENT);
             unfold trace_of, result_of; cbn [fst snd exec_make_from raise];
             rewrite !popen_requests_turn, ?popen_requests_app,
               ?popen_requests_warning; by split.
      * unfold trace_of, result_of; cbn [fst snd].
        rewrite popen_requests_app, popen_requests_warning. by split.
  - rewrite exec_make_from_cons.
    destruct (popen H _ (st_world s)) as [[rc out err|errno] w].
    + unfold trace_of; cbn [snd].
      by rewrite popen_requests_turn, popen_requests_written.
    + destruct (errno =? ENOENT).
      * unfold trace_of; cbn [snd exec_make_from raise].
        by rewrite popen_requests_turn.
      * unfold trace_of; cbn [snd].
        by rewrite popen_requests_app, popen_requests_warning.
Qed.

(** ** [build_cares]: cleaning and the existence check *)

Section BuildCares.

Variable H : host.

Lemma trace_bind {A B} (m : M H A) (k : A -> M H B) (s : state H) :
  trace_of (bind m k s) =
    trace_of (m s) ++
    match result_of (m s) with
    | Ok a => trace_of (k a (state_of (m s)))
    | Raise _ => []
    end.
Proof.
  unfold bind, trace_of, result_of, state_of.
  destruct (m s) as [[[a|e] s1] t1]; cbn [fst snd].
  - by destruct (k a s1) as [[r s2] t2].
  - by rewrite app_nil_r.
Qed.

Lemma exec_process_head c silent catch_enoent kw (s : state H) :
  exists rest,
    trace_of (exec_process H c silent catch_enoent kw s)
      = EvPopen (exec_request c kw) :: rest.
Proof.
  rewrite exec_process_eq.
  destruct (popen H _ (st_world s)) as [[rc out err|errno] w]; by eexists.
Qed.

Lemma exec_make_head c silent kw (s : state H) :
  exists rest,
    trace_of (exec_make H c silent kw s)
      = EvPopen (exec_request (ArgList ((if on_bsd H then "gmake" else "make") :: c)) kw)
          :: rest.
Proof.
  unfold exec_make, makes.
  assert (Hquiet : plain_make_warning H (if on_bsd H then "gmake" else "make") = []).
  { unfold plain_make_warning. by destruct (on_bsd H). }
  destruct (on_bsd H); rewrite exec_make_from_cons, Hquiet;
    (destruct (popen H _ (st_world s)) as [[rc out err|errno] w];
     [ by eexists
     | destruct (errno =? ENOENT);
       [ destruct (exec_make_from H _ c silent kw _) as [[r s'] t]; by eexists
       | by eexists ] ]).
Qed.

Lemma clean_head ctype (s : state H) :
  exists rest,
    trace_of (clean H (String.eqb ctype "msvc") s)
      = EvPopen (clean_request H ctype) :: rest.
Proof.
  unfold clean, clean_request.
  destruct (String.eqb ctype "msvc"); rewrite trace_bind.
  - destruct (exec_process_head (ArgStr "cmd.exe /C vcbuild.bat clean") true true
                {| cwd := Some (cares_dir H); env := None; shell := true |} s)
      as [rest ->].
    by eexists.
  - destruct (exec_make_head ["clean"] true
                {| cwd := Some (cares_dir H); env := None; shell := false |} s)
      as [rest ->].
    by eexists.
Qed.

(** With the flag unset and the artifact present, [build_cares] only looks
    at the file and logs that nothing needs building. *)
Lemma build_cares_present (s : state H) lib :
  cares_lib (st_self s) = Some lib ->
  path_exists H lib (st_world s) = true ->
  cares_clean_compile (st_self s) = 0 ->
  build_cares H s = (Ok tt, s, [EvExists lib; EvLog Info LogNoNeed]).
Proof.
  intros Hlib Hex Hflag.
  unfold build_cares, bind, attr, when, os_path_exists, emit, ret.
  rewrite Hflag. cbn. rewrite Hlib. cbn. by rewrite Hex.
Qed.

(** With the flag set, the run of [build_cares] starts with the run of [clean]. *)
Lemma build_cares_flag_set (s : state H) :
  cares_clean_compile (st_self s) <> 0 ->
  exists rest,
    trace_of (build_cares H s)
      = trace_of (clean H (String.eqb (compiler_type (st_self s)) "msvc") s) ++ rest.
Proof.
  intros Hflag. apply Z.eqb_neq in Hflag.
  unfold build_cares.
  rewrite trace_bind. cbn [attr trace_of result_of state_of fst snd app].
  rewrite trace_bind. cbn [attr trace_of result_of state_of fst snd app].
  rewrite trace_bind. rewrite Hflag. cbn [negb when].
  by eexists.
Qed.

End BuildCares.

(** C2 -- When [build_cares] runs with [cares_clean_compile] unset and the
    artifact [self.cares_lib] (the libcares.a or cares.lib path that
    [build_extensions] stored) already on disk, it starts no subprocess at
    all: neither the build tool nor the cleaning command.  It checks the
    file, logs, and returns. *)
Theorem build_cares_skips_existing_artifact (H : host) (s : state H) (lib : string) :
  cares_lib (st_self s) = Some lib ->
  path_exists H lib (st_world s) = true ->
  cares_clean_compile (st_self s) = 0 ->
  result_of (build_cares H s) = Ok tt /\
  popen_requests (trace_of (build_cares H s)) = [] /\
  trace_of (build_cares H s) = [EvExists lib; EvLog Info LogNoNeed].
Proof.
  intros Hlib Hex Hflag.
  rewrite (build_cares_present H s lib Hlib Hex Hflag).
  repeat split.
Qed.

Lemma build_cares_skips_existing_artifact_witness :
  let s := start (tt : world (healthy_host "linux"))
             (prepared_command 0 "unix" "deps/c-ares/libcares.a") in
  cares_lib (st_self s) = Some "deps/c-ares/libcares.a" /\
  path_exists (healthy_host "linux") "deps/c-ares/libcares.a" (st_world s) = true /\
  cares_clean_compile (st_self s) = 0 /\
  popen_requests (trace_of (build_cares (healthy_host "linux") s)) = [].
Proof.
  cbn zeta. split; [reflexivity|]. split; [reflexivity|]. split; [reflexivity|].
  apply (build_cares_skips_existing_artifact (healthy_host "linux")
           (start (tt : world (healthy_host "linux"))
              (prepared_command 0 "unix" "deps/c-ares/libcares.a"))
           "deps/c-ares/libcares.a"); reflexivity.
Defined.

(** C3 -- When [cares_clean_compile] is set, the first thing [build_cares]
    does is to start the cleaning command ([vcbuild.bat clean] through
    cmd.exe under MSVC, otherwise the make program with target [clean], in
    the bundled source directory), whether or not the artifact exists; every
    existence check of the artifact comes after it in the trace. *)
Theorem build_cares_cleans_first (H : host) (s : state H) :
  cares_clean_compile (st_self s) <> 0 ->
  let cleaning := EvPopen (clean_request H (compiler_type (st_self s))) in
  (exists rest, trace_of (build_cares H s) = cleaning :: rest) /\
  (forall before path after,
      trace_of (build_cares H s) = before ++ EvExists path :: after ->
      cleaning ∈ before).
Proof.
  intros Hflag cleaning.
  destruct (build_cares_flag_set H s Hflag) as [rest Htrace].
  destruct (clean_head H (compiler_type (st_self s)) s) as [rest' Hclean].
  rewrite Hclean in Htrace. fold cleaning in Htrace.
  split; [by eexists|].
  intros before path after Hsplit. rewrite Htrace in Hsplit.
  destruct before as [|e before]; [discriminate|].
  injection Hsplit as <- _. apply list_elem_of_here.
Qed.

Lemma build_cares_cleans_first_witness :
  let s := start (tt : world (healthy_host "linux"))
             (prepared_command 1 "unix" "deps/c-ares/libcares.a") in
  cares_clean_compile (st_self s) <> 0 /\
  path_exists (healthy_host "linux") "deps/c-ares/libcares.a" (st_world s) = true /\
  exists rest,
    trace_of (build_cares (healthy_host "linux") s)
    = EvPopen {| req_args := ArgList ["make"; "clean"]; req_stdin_pipe := true;
                 req_cwd := Some "deps/c-ares"; req_env := None;
                 req_shell := false |} :: rest.
Proof.
  cbn zeta. split; [discriminate|]. split; [reflexivity|].
  apply (build_cares_cleans_first (healthy_host "linux")
           (start (tt : world (healthy_host "linux"))
              (prepared_command 1 "unix" "deps/c-ares/libcares.a"))).
  discriminate.
Defined.

(** ** The pkg-config helpers *)

Section PkgConfig.

Variable H : host.

Lemma call_eq command opt (s : state H) :
  call H command opt s =
    match popen H (call_request command) (st_world s) with
    | (Completed returncode out err, w) =>
        let stdout := stripped_words opt out in
        let stderr := Py.split err in
        (if returncode =? 0 then
           Ok {| pipe_stdout := stdout; pipe_stderr := stderr;
                 pipe_returncode := returncode |}
         else Raise (SystemExit (ExitWords stderr)),
         moved s w,
         EvPopen (call_request command)
           :: EvLog Debug (LogStdout command stdout)
           :: EvLog Debug (LogStderr command stderr)
           :: if returncode =? 0 then []
              else [EvLog Debug (LogReturncode command returncode)])
    | (Failed errno, w) =>
        (Raise (OSError errno), moved s w, [EvPopen (call_request command)])
    end.
Proof.
  unfold call, bind, run_process, stripped_words, moved.
  change {| req_args := ArgStr command; req_stdin_pipe := false; req_cwd := None;
            req_env := None; req_shell := true |}
    with (call_request command).
  destruct (popen H (call_request command) (st_world s)) as [[rc out err|errno] w];
    [|reflexivity].
  destruct (rc =? 0); reflexivity.
Qed.

(** The version check turns whatever [call] raises into the one message. *)
Lemma pkg_config_version_check_result pkg version (s : state H) :
  result_of (pkg_config_version_check H pkg version s) =
    match result_of (call H (version_check_command pkg version) None s) with
    | Ok _ => Ok tt
    | Raise _ => Raise (SystemExit (ExitText (not_found_msg pkg version)))
    end.
Proof.
  unfold pkg_config_version_check, bind, try_catch, result_of.
  destruct (call H (version_check_command pkg version) None s) as [[[p|e] s1] t1];
    reflexivity.
Qed.

End PkgConfig.

(** C4 -- In [pkg_config_version_check], when pkg-config's [--exists
    "<pkg> >= <version>"] query exits nonzero (what it does when the
    installed version is below the minimum, e.g. 1.10 against 1.11), a
    [SystemExit] is raised whose message is exactly [Error: <pkg> >=
    <version> not found]; when the query exits with zero (the installed
    version meets the minimum, e.g. 1.12) the check returns normally. *)
Theorem pkg_config_version_check_verdict (H : host) (pkg version : string)
    (s : state H) (returncode : Z) (out err : string) (w : world H) :
  popen H
    (call_request ("pkg-config --print-errors --exists " +:+ dq +:+ pkg +:+ " >= "
                     +:+ version +:+ dq))
    (st_world s) = (Completed returncode out err, w) ->
  (returncode <> 0 ->
     result_of (pkg_config_version_check H pkg version s)
       = Raise (SystemExit
                  (ExitText ("Error: " +:+ pkg +:+ " >= " +:+ version +:+ " not found")))) /\
  (returncode = 0 ->
     result_of (pkg_config_version_check H pkg version s) = Ok tt).
Proof.
  intros Hrun.
  rewrite pkg_config_version_check_result, call_eq.
  unfold version_check_command. rewrite Hrun. unfold result_of; cbn [fst].
  split.
  - intros Hne. apply Z.eqb_neq in Hne. by rewrite Hne.
  - by intros ->.
Qed.

Lemma pkg_config_version_check_verdict_witness :
  result_of
    (pkg_config_version_check old_libcares_host "libcares" "1.11"
       (start (tt : world old_libcares_host) (fresh_command 1 0 "unix")))
    = Raise (SystemExit (ExitText "Error: libcares >= 1.11 not found")) /\
  result_of
    (pkg_config_version_check new_libcares_host "libcares" "1.11"
       (start (tt : world new_libcares_host) (fresh_command 1 0 "unix")))
    = Ok tt.
Proof.
  split.
  - apply (pkg_config_version_check_verdict old_libcares_host "libcares" "1.11"
             (start (tt : world old_libcares_host) (fresh_command 1 0 "unix"))
             1 EmptyString
             ("Requested 'libcares >= 1.11' but version of c-ares is 1.10"
                +:+ String "010" EmptyString) tt eq_refl).
    discriminate.
  - apply (pkg_config_version_check_verdict new_libcares_host "libcares" "1.11"
             (start (tt : world new_libcares_host) (fresh_command 1 0 "unix"))
             0 EmptyString EmptyString tt eq_refl).
    reflexivity.
Defined.

(** ** Missing executables *)

(** On a machine where [Popen] cannot start anything, the pkg-config
    queries end in a plain [OSError], and the build as a whole in the
    version check's "not found" message. *)
Example call_on_bare_host :
  result_of
    (pkg_config_parse (bare_host "linux") "--libs-only-l" "libcares"
       (start (tt : world (bare_host "linux")) (fresh_command 1 0 "unix")))
    = Raise (OSError ENOENT) /\
  result_of
    (build_extensions (bare_host "linux")
       (start (tt : world (bare_host "linux")) (fresh_command 1 0 "unix")))
    = Raise (SystemExit (ExitText "Error: libcares >= 1.11 not found")).
Proof. split; reflexivity. Qed.

(** The MSVC build passes its command as one string, so the tool named in
    the "not present" message is the first character of that string. *)
Example exec_process_string_on_bare_host :
  result_of
    (build_cares (bare_host "win32")
       (start (tt : world (bare_host "win32"))
          (prepared_command 0 "msvc" "deps/c-ares/cares.lib")))
    = Raise (DistutilsError (dq +:+ "c" +:+ dq +:+ " is not present on this system")).
Proof. reflexivity. Qed.

(** C5, as stated, fails: a command run through [call] (the pkg-config
    queries) whose [Popen] reports ENOENT surfaces the [OSError] itself, not
    a "not present on this system" message. *)
Lemma enoent_through_call_is_plain_oserror :
  ~ (forall (H : host) (command : string) (opt : option string) (s : state H)
            (w : world H),
        popen H (call_request command) (st_world s) = (Failed ENOENT, w) ->
        reports_not_present (result_of (call H command opt s))).
Proof.
  intros Hclaim.
  destruct (Hclaim (bare_host "linux") "pkg-config --libs-only-l libcares" (Some "-l")
              (start (tt : world (bare_host "linux")) (fresh_command 1 0 "unix"))
              tt eq_refl) as [tool Htool].
  discriminate Htool.
Qed.

(** C5, amended -- For a command run through [exec_process] as an argument
    list, an ENOENT from [Popen] is reported as ["<first argument>" is not
    present on this system] when [catch_enoent] is in effect, and is passed
    on as the [OSError] when it is not.  [exec_make] raises ["make" is not
    present on this system] exactly when every candidate make name has been
    attempted, in order, and each was reported missing. *)
Theorem missing_tool_is_named (H : host) :
  (forall tool args silent kw (s : state H) w,
      popen H (exec_request (ArgList (tool :: args)) kw) (st_world s)
        = (Failed ENOENT, w) ->
      result_of (exec_process H (ArgList (tool :: args)) silent true kw s)
        = Raise (DistutilsError (dq +:+ tool +:+ dq +:+ " is not present on this system")) /\
      result_of (exec_process H (ArgList (tool :: args)) silent false kw s)
        = Raise (OSError ENOENT)) /\
  (forall c silent kw (s : state H),
      (result_of (exec_make H c silent kw s)
         = Raise (DistutilsError (dq +:+ "make" +:+ dq +:+ " is not present on this system"))
       <-> all_missing H (makes H) c kw (st_world s) = true) /\
      (all_missing H (makes H) c kw (st_world s) = true ->
       map req_args (popen_requests (trace_of (exec_make H c silent kw s)))
         = map (fun make => ArgList (make :: c)) (makes H))).
Proof.
  split.
  - intros tool args silent kw s w Hrun.
    rewrite !exec_process_eq, Hrun. by split.
  - intros c silent kw s. split.
    + apply exec_make_from_missing.
    + apply exec_make_from_missing_tried.
Qed.

Lemma missing_tool_is_named_witness :
  let kw := {| cwd := Some "deps/c-ares"; env := None; shell := false |} in
  let s := start (tt : world (bare_host "freebsd12")) (fresh_command 0 0 "unix") in
  result_of (exec_process (bare_host "freebsd12") (ArgList ["gmake"; "clean"]) true true kw s)
    = Raise (DistutilsError (dq +:+ "gmake" +:+ dq +:+ " is not present on this system")) /\
  result_of (exec_make (bare_host "freebsd12") ["clean"] true kw s)
    = Raise (DistutilsError (dq +:+ "make" +:+ dq +:+ " is not present on this system")) /\
  map req_args
    (popen_requests (trace_of (exec_make (bare_host "freebsd12") ["clean"] true kw s)))
    = [ArgList ["gmake"; "clean"]; ArgList ["make"; "clean"]].
Proof.
  cbn zeta.
  destruct (missing_tool_is_named (bare_host "freebsd12")) as [Hproc Hmake].
  split.
  - apply (Hproc "gmake" ["clean"] true
             {| cwd := Some "deps/c-ares"; env := None; shell := false |}
             (start (tt : world (bare_host "freebsd12")) (fresh_command 0 0 "unix"))
             tt eq_refl).
  - destruct (Hmake ["clean"] true
                {| cwd := Some "deps/c-ares"; env := None; shell := false |}
                (start (tt : world (bare_host "freebsd12")) (fresh_command 0 0 "unix")))
      as [Hiff Htried].
    split.
    + apply Hiff. reflexivity.
    + apply Htried. reflexivity.
Defined.

Lemma exec_make_candidate_order_witness :
  let kw := {| cwd := Some "deps/c-ares"; env := None; shell := false |} in
  let s := start (tt : world bsd_without_gmake) (fresh_command 0 0 "unix") in
  map req_args
    (popen_requests (trace_of (exec_make bsd_without_gmake ["libcares.a"] true kw s)))
    = [ArgList ["gmake"; "libcares.a"]; ArgList ["make"; "libcares.a"]] /\
  result_of (exec_make bsd_without_gmake ["libcares.a"] true kw s) = Ok "done".
Proof.
  cbn zeta.
  exact (exec_make_candidate_order bsd_without_gmake ["libcares.a"] true
           {| cwd := Some "deps/c-ares"; env := None; shell := false |}
           (start (tt : world bsd_without_gmake) (fresh_command 0 0 "unix"))).
Defined.

(** ** The environment of the build tool *)

Section BuildEnvironment.

Variable H : host.

(** Every request of the loop runs one of the candidates on the given
    arguments, with the given keyword arguments. *)
Lemma exec_make_from_requests candidates c silent kw (s : state H) r :
  r ∈ popen_requests (trace_of (exec_make_from H candidates c silent kw s)) ->
  exists make, make ∈ candidates /\ r = exec_request (ArgList (make :: c)) kw.
Proof.
  revert s. induction candidates as [|make rest IH]; intros s.
  - cbn. intros Hin. by apply elem_of_nil in Hin.
  - rewrite exec_make_from_cons.
    destruct (popen H _ (st_world s)) as [[rc out err|errno] w].
    + unfold trace_of; cbn [snd].
      rewrite popen_requests_turn, popen_requests_written.
      intros ->%list_elem_of_singleton.
      exists make. split; [apply list_elem_of_here|reflexivity].
    + destruct (errno =? ENOENT).
      * specialize (IH (moved s w)).
        destruct (exec_make_from H rest c silent kw (moved s w)) as [[r' s'] t].
        unfold trace_of in *; cbn [snd] in *.
        rewrite popen_requests_turn.
        intros [->|Hin]%elem_of_cons.
        -- exists make. split; [apply list_elem_of_here|reflexivity].
        -- destruct (IH Hin) as (m & Hm & ->).
           exists m. split; [by apply list_elem_of_further|reflexivity].
      * unfold trace_of; cbn [snd].
        rewrite popen_requests_app, popen_requests_warning. cbn.
        intros ->%list_elem_of_singleton.
        exists make. split; [apply list_elem_of_here|reflexivity].
Qed.

Lemma build_requests (s : state H) :
  popen_requests (trace_of (build H false s))
    = popen_requests
        (trace_of (exec_make H ["libcares.a"] true
                     {| cwd := Some (cares_dir H); env := Some (build_env H);
                        shell := false |} s)).
Proof.
  unfold build. rewrite trace_bind.
  cbn [emit trace_of result_of state_of fst snd].
  rewrite popen_requests_app, trace_bind, popen_requests_app.
  change (popen_requests [EvLog Info LogBuilding]) with (@nil popen_request).
  destruct (result_of _); cbn [app ret trace_of snd]; apply app_nil_r.
Qed.

Lemma merged_cflags_unset (environ : gmap string string) :
  ~ Py.truthy (environ !! "CFLAGS") -> merged_cflags environ = "-fPIC".
Proof.
  unfold merged_cflags. destruct (environ !! "CFLAGS") as [[|a x]|]; cbn; tauto.
Qed.

Lemma merged_cflags_set (environ : gmap string string) prior :
  environ !! "CFLAGS" = Some prior -> prior <> EmptyString ->
  merged_cflags environ = "-fPIC " +:+ prior.
Proof.
  unfold merged_cflags. intros -> Hne. destruct prior as [|a x]; [done|reflexivity].
Qed.

End BuildEnvironment.

(** C8 -- In a bundled build without MSVC, every request for the build tool
    (one of the make candidates, with target [libcares.a]) carries an
    environment that is the process environment with [CFLAGS] replaced:
    [-fPIC] alone when [CFLAGS] was unset or empty, otherwise [-fPIC], a
    blank and the previous value.  Every other variable is as in the process
    environment.  At least one such request is made. *)
Theorem build_passes_merged_cflags (H : host) (s : state H) :
  ((os_environ H !! "CFLAGS" = None \/ os_environ H !! "CFLAGS" = Some EmptyString) ->
     build_env H !! "CFLAGS" = Some "-fPIC") /\
  (forall prior, os_environ H !! "CFLAGS" = Some prior -> prior <> EmptyString ->
     build_env H !! "CFLAGS" = Some ("-fPIC " +:+ prior)) /\
  (forall name, name <> "CFLAGS" -> build_env H !! name = os_environ H !! name) /\
  (forall r, r ∈ popen_requests (trace_of (build H false s)) ->
     req_env r = Some (build_env H) /\
     exists make, make ∈ makes H /\ req_args r = ArgList [make; "libcares.a"]) /\
  popen_requests (trace_of (build H false s)) <> [].
Proof.
  repeat apply conj.
  - intros Hunset. unfold build_env. cbn zeta. rewrite lookup_insert_eq.
    f_equal. apply merged_cflags_unset.
    destruct Hunset as [-> | ->]; cbn; tauto.
  - intros prior Hprior Hne. unfold build_env. cbn zeta. rewrite lookup_insert_eq.
    f_equal. by apply merged_cflags_set.
  - intros name Hname. unfold build_env. cbn zeta. by rewrite lookup_insert_ne.
  - intros r Hr. rewrite build_requests in Hr.
    apply exec_make_from_requests in Hr as (make & Hmake & ->).
    split; [reflexivity|]. by exists make.
  - rewrite build_requests.
    destruct (exec_make_head H ["libcares.a"] true
                {| cwd := Some (cares_dir H); env := Some (build_env H);
                   shell := false |} s) as [rest ->].
    discriminate.
Qed.

Lemma build_passes_merged_cflags_witness :
  let s := start (tt : world host_with_cflags) (prepared_command 0 "unix" "deps/c-ares/libcares.a") in
  os_environ host_with_cflags !! "CFLAGS" = Some "-O2" /\
  build_env host_with_cflags !! "CFLAGS" = Some "-fPIC -O2" /\
  build_env host_with_cflags !! "HOME" = Some "/root" /\
  (forall r, r ∈ popen_requests (trace_of (build host_with_cflags false s)) ->
     req_env r = Some (build_env host_with_cflags) /\
     exists make, make ∈ makes host_with_cflags /\
                  req_args r = ArgList [make; "libcares.a"]).
Proof.
  cbn zeta.
  destruct (build_passes_merged_cflags host_with_cflags
              (start (tt : world host_with_cflags)
                 (prepared_command 0 "unix" "deps/c-ares/libcares.a")))
    as (_ & Hset & Hother & Hreq & _).
  split; [vm_compute; reflexivity|].
  split; [apply (Hset "-O2"); [vm_compute; reflexivity | discriminate]|].
  split; [rewrite (Hother "HOME"); [vm_compute; reflexivity | discriminate]|].
  exact Hreq.
Defined.

(** ** Which computations touch the command object *)

Section Frame.

Variable H : host.

Lemma keeps_ret {A} (a : A) : keeps_self (@ret H A a).
Proof. by intros s. Qed.

Lemma keeps_raise {A} e : keeps_self (@raise H A e).
Proof. by intros s. Qed.

Lemma keeps_emit e : keeps_self (@emit H e).
Proof. by intros s. Qed.

Lemma keeps_attr {A} (f : cares_build_ext -> A) : keeps_self (@attr H A f).
Proof. by intros s. Qed.

Lemma keeps_bind {A B} (m : M H A) (k : A -> M H B) :
  keeps_self m -> (forall a, keeps_self (k a)) -> keeps_self (bind m k).
Proof.
  intros Hm Hk s. specialize (Hm s). unfold bind, state_of in *.
  destruct (m s) as [[[a|e] s1] t1]; cbn [fst snd] in *; [|exact Hm].
  specialize (Hk a s1). unfold state_of in Hk.
  destruct (k a s1) as [[r s2] t2]; cbn [fst snd] in *. congruence.
Qed.

Lemma keeps_try_catch {A} (m : M H A) (handler : exn -> M H A) :
  keeps_self m -> (forall e, keeps_self (handler e)) -> keeps_self (try_catch m handler).
Proof.
  intros Hm Hh s. specialize (Hm s). unfold try_catch, state_of in *.
  destruct (m s) as [[[a|e] s1] t1]; cbn [fst snd] in *; [exact Hm|].
  specialize (Hh e s1). unfold state_of in Hh.
  destruct (handler e s1) as [[r s2] t2]; cbn [fst snd] in *. congruence.
Qed.

Lemma keeps_when b (m : M H unit) : keeps_self m -> keeps_self (when b m).
Proof. destruct b; [done|]. intros _. apply keeps_ret. Qed.

Lemma keeps_run_process r : keeps_self (run_process H r).
Proof.
  intros s. unfold run_process, state_of.
  by destruct (popen H r (st_world s)) as [[rc out err|errno] w].
Qed.

Lemma keeps_os_path_exists p : keeps_self (os_path_exists H p).
Proof. by intros s. Qed.

Lemma keeps_exec_process c silent catch_enoent kw :
  keeps_self (exec_process H c silent catch_enoent kw).
Proof.
  intros s. rewrite exec_process_eq.
  by destruct (popen H _ (st_world s)) as [[rc out err|errno] w].
Qed.

Lemma keeps_exec_make_from candidates c silent kw :
  keeps_self (exec_make_from H candidates c silent kw).
Proof.
  induction candidates as [|make rest IH]; intros s; [reflexivity|].
  rewrite exec_make_from_cons.
  destruct (popen H _ (st_world s)) as [[rc out err|errno] w]; [reflexivity|].
  destruct (errno =? ENOENT); [|reflexivity].
  specialize (IH (moved s w)). unfold state_of in *.
  by destruct (exec_make_from H rest c silent kw (moved s w)) as [[r s'] t].
Qed.

Lemma keeps_exec_make c silent kw : keeps_self (exec_make H c silent kw).
Proof. apply keeps_exec_make_from. Qed.

Lemma keeps_call command opt : keeps_self (call H command opt).
Proof.
  intros s. rewrite call_eq.
  by destruct (popen H _ (st_world s)) as [[rc out err|errno] w].
Qed.

End Frame.

Create HintDb keeps.

#[global] Hint Resolve keeps_ret keeps_raise keeps_emit keeps_attr keeps_when
  keeps_run_process keeps_os_path_exists keeps_exec_process keeps_exec_make
  keeps_call : keeps.

Ltac keeps :=
  repeat first
    [ solve [auto with keeps]
    | apply keeps_when
    | apply keeps_bind; [|intros ?]
    | apply keeps_try_catch; [|intros ?]
    | match goal with
      | |- keeps_self (if ?b then _ else _) => destruct b
      | |- keeps_self (match ?x with _ => _ end) => destruct x
      end ].

Lemma keeps_clean H b : keeps_self (clean H b).
Proof. unfold clean. keeps. Qed.

Lemma keeps_build H b : keeps_self (build H b).
Proof. unfold build. keeps. Qed.

#[global] Hint Resolve keeps_clean keeps_build : keeps.

Lemma keeps_build_cares H : keeps_self (build_cares H).
Proof. unfold build_cares. keeps. Qed.

Lemma keeps_pkg_config_version_check H pkg version :
  keeps_self (pkg_config_version_check H pkg version).
Proof. unfold pkg_config_version_check. keeps. Qed.

Lemma keeps_pkg_config_parse H opt pkg : keeps_self (pkg_config_parse H opt pkg).
Proof. unfold pkg_config_parse. keeps. Qed.

#[global] Hint Resolve keeps_pkg_config_version_check keeps_pkg_config_parse : keeps.

Lemma keeps_use_system H : keeps_self (use_system H).
Proof. unfold use_system, compiler_do. keeps. Qed.

Lemma keeps_compiler_do H c : keeps_self (compiler_do H c).
Proof. apply keeps_emit. Qed.

#[global] Hint Resolve keeps_build_cares keeps_use_system keeps_compiler_do : keeps.

(** ** [build_extensions]: a Hoare rule per operation of the monad *)

Section BuildExtensions.

Variable H : host.

Lemma post_bind {A B} (m : M H A) (k : A -> M H B) (s : state H)
    (Q : B -> state H -> list event -> Prop) :
  post m s (fun a s1 t1 => post (k a) s1 (fun b s2 t2 => Q b s2 (t1 ++ t2))) ->
  post (bind m k) s Q.
Proof.
  unfold post, bind. destruct (m s) as [[[a|e] s1] t1]; [|done].
  by destruct (k a s1) as [[[b|e] s2] t2].
Qed.

Lemma post_ret {A} (a : A) (s : state H) (Q : A -> state H -> list event -> Prop) :
  Q a s [] -> post (ret a) s Q.
Proof. done. Qed.

Lemma post_raise {A} e (s : state H) (Q : A -> state H -> list event -> Prop) :
  post (raise e) s Q.
Proof. done. Qed.

Lemma post_attr {A} (f : cares_build_ext -> A) (s : state H)
    (Q : A -> state H -> list event -> Prop) :
  Q (f (st_self s)) s [] -> post (attr f) s Q.
Proof. done. Qed.

Lemma post_assign f (s : state H) (Q : unit -> state H -> list event -> Prop) :
  Q tt {| st_world := st_world s; st_self := f (st_self s) |} [] ->
  post (assign f) s Q.
Proof. done. Qed.

Lemma post_emit e (s : state H) (Q : unit -> state H -> list event -> Prop) :
  Q tt s [e] -> post (emit e) s Q.
Proof. done. Qed.

Lemma post_when (b : bool) (m : M H unit) (s : state H)
    (Q : unit -> state H -> list event -> Prop) :
  (if b then post m s Q else Q tt s []) -> post (when b m) s Q.
Proof. by destruct b. Qed.

Lemma post_keeps {A} (m : M H A) (s : state H)
    (Q : A -> state H -> list event -> Prop) :
  keeps_self m -> (forall a w t, Q a (moved s w) t) -> post m s Q.
Proof.
  intros Hm HQ. specialize (Hm s). unfold post, state_of in *.
  destruct (m s) as [[[a|e] [w o]] t]; [|done]. cbn in Hm. subst o.
  apply (HQ a w t).
Qed.

Lemma ends_with_last e : ends_with e [e].
Proof. by exists []. Qed.

Lemma ends_with_app e t1 t2 : ends_with e t2 -> ends_with e (t1 ++ t2).
Proof. intros [b ->]. exists (t1 ++ b). by rewrite app_assoc. Qed.

Lemma ends_after_here x e t : ends_with e t -> ends_after x e ([x] ++ t).
Proof. intros [b ->]. exists (x :: b). split; [done|]. apply list_elem_of_here. Qed.

Lemma ends_after_app x e t1 t2 : ends_after x e t2 -> ends_after x e (t1 ++ t2).
Proof.
  intros (b & -> & Hin). exists (t1 ++ b). split; [by rewrite app_assoc|].
  apply elem_of_app. by right.
Qed.

Lemma post_eq {A} (m : M H A) (s : state H)
    (Q : A -> state H -> list event -> Prop) a s' t :
  m s = (Ok a, s', t) -> Q a s' t -> post m s Q.
Proof. unfold post. by intros ->. Qed.

Lemma configured_libs_extensions o : extensions (configured_libs o) = extensions o.
Proof. unfold configured_libs. by destruct (String.eqb (compiler_type o) "mingw32"). Qed.

Lemma configured_libs_flag o :
  cares_clean_compile (configured_libs o) = cares_clean_compile o.
Proof. unfold configured_libs. by destruct (String.eqb (compiler_type o) "mingw32"). Qed.

(** The last two steps: read the object, hand over. *)
Lemma delegation_post (s : state H) self :
  st_self s = self ->
  post (bind (attr id) (fun self => emit (EvBuildExtensions self))) s
    (fun _ s' t => st_self s' = self /\ ends_with (EvBuildExtensions self) t).
Proof.
  intros Hs. apply post_bind, post_attr, post_emit.
  split; [exact Hs|]. unfold id. rewrite Hs.
  apply ends_with_app, ends_with_last.
Qed.

(** The platform step only touches the link arguments of the first
    extension, and only for MSVC on win32. *)
Lemma platform_libraries_post ctype (s : state H) x rest :
  extensions (st_self s) = x :: rest ->
  post (platform_libraries H ctype) s
    (fun _ s' _ =>
       st_self s' =
         set_extensions
           ((if negb (Py.startswith "linux" (sys_platform H))
                && String.eqb (sys_platform H) "win32" && String.eqb ctype "msvc"
             then set_extra_link_args ["/NODEFAULTLIB:libcmt"] x else x) :: rest)
           (st_self s)).
Proof.
  intros Hexts.
  assert (Hsame : st_self s = set_extensions (x :: rest) (st_self s)).
  { destruct s as [w o]. destruct o. cbn in *. by subst. }
  unfold platform_libraries.
  destruct (Py.startswith "linux" (sys_platform H)); cbn [negb andb].
  - by apply post_emit.
  - destruct (String.eqb (sys_platform H) "win32"); cbn [andb]; [|by apply post_ret].
    destruct (String.eqb ctype "msvc"); cbn [when].
    + apply post_bind, post_bind, post_bind, post_attr. rewrite Hexts.
      apply post_assign, post_emit.
      do 2 apply post_bind, post_emit. apply post_emit. reflexivity.
    + apply post_bind, post_ret.
      do 2 apply post_bind, post_emit. by apply post_emit.
Qed.

Lemma post_mono {A} (m : M H A) (s : state H)
    (Q Q' : A -> state H -> list event -> Prop) :
  (forall a s' t, Q a s' t -> Q' a s' t) -> post m s Q -> post m s Q'.
Proof. unfold post. destruct (m s) as [[[a|e] s'] t]; auto. Qed.

Lemma build_extensions_post (s : state H) :
  post (build_extensions H) s
    (fun _ s' t =>
       st_self s' = configured H (st_self s) /\
       extensions (st_self s) <> [] /\
       ends_after (EvCompiler (add_include_dir (bundled_include_dir H)))
         (EvBuildExtensions (configured H (st_self s))) t).
Proof.
  destruct s as [w o]. cbn [st_self].
  unfold build_extensions.
  apply post_bind, post_attr.
  apply post_bind, post_keeps; [keeps|intros _ w1 t1].
  apply post_bind, post_keeps; [keeps|intros _ w2 t2].
  apply post_bind, post_attr. cbn [moved st_self st_world].
  apply post_bind.
  apply (post_eq _ _ _ tt {| st_world := w2; st_self := configured_libs o |} []).
  { unfold configured_libs. by destruct (String.eqb (compiler_type o) "mingw32"). }
  apply post_bind, post_attr.
  apply post_bind, post_assign.
  apply post_bind, post_assign. cbn [st_self st_world].
  apply post_bind, post_keeps; [keeps|intros _ w3 t3].
  apply post_bind, post_keeps; [keeps|intros _ w4 t4].
  apply post_bind, post_attr. cbn [moved st_self st_world set_cares_lib cares_lib].
  apply post_bind, post_bind, post_attr.
  cbn [st_self st_world moved set_force set_cares_lib extensions].
  rewrite configured_libs_extensions, configured_libs_flag.
  destruct (extensions o) as [|x rest] eqn:Hexts; [apply post_raise|].
  apply post_assign.
  apply post_bind, post_emit.
  apply post_bind.
  cbn [st_self st_world moved set_force set_cares_lib set_extensions extensions].
  eapply post_mono; [|by eapply platform_libraries_post].
  cbn beta. intros _ s1 t0 Hs1.
  assert (Hfinal : st_self s1 = configured H o).
  { rewrite Hs1. clear Hs1. destruct o. cbn in *. subst.
    unfold configured, configured_libs. cbn.
    by destruct (String.eqb compiler_type0 "mingw32"). }
  eapply post_mono; [|by apply delegation_post].
  cbn beta. intros _ s2 t5 [Hs2 Hends].
  split; [exact Hs2|]. split; [done|].
  repeat first [apply ends_after_here | apply ends_after_app].
  by apply ends_with_app.
Qed.

End BuildExtensions.

(** A run of [build_extensions] that returns has configured the command
    object and ended by handing it over. *)
Lemma build_extensions_returns (H : host) (s : state H) :
  result_of (build_extensions H s) = Ok tt ->
  st_self (state_of (build_extensions H s)) = configured H (st_self s) /\
  extensions (st_self s) <> [] /\
  ends_after (EvCompiler (add_include_dir (bundled_include_dir H)))
    (EvBuildExtensions (configured H (st_self s)))
    (trace_of (build_extensions H s)).
Proof.
  pose proof (build_extensions_post H s) as Hpost. unfold post in Hpost.
  unfold result_of, state_of, trace_of.
  destruct (build_extensions H s) as [[[[]|e] s'] t]; cbn [fst snd]; [|discriminate].
  intros _. exact Hpost.
Qed.

(** C9 -- When [build_extensions] runs to its end: under mingw32 the
    compiler's [dll_libraries] is the old list filtered, so the entries
    whose name starts with [msvcr] are gone and the others are kept in
    their order; under MSVC (platform win32) the first extension's
    [extra_link_args] is [/NODEFAULTLIB:libcmt] alone. *)
Theorem windows_toolchains_drop_default_runtime (H : host) (s : state H) :
  result_of (build_extensions H s) = Ok tt ->
  let before := st_self s in
  let after := st_self (state_of (build_extensions H s)) in
  (compiler_type before = "mingw32" ->
     dll_libraries after
       = filter (fun lib => negb (Py.startswith "msvcr" lib)) (dll_libraries before) /\
     (forall lib, lib ∈ dll_libraries after <->
                  lib ∈ dll_libraries before /\ Py.startswith "msvcr" lib = false) /\
     sublist (dll_libraries after) (dll_libraries before)) /\
  (compiler_type before = "msvc" -> sys_platform H = "win32" ->
     exists x rest,
       extensions after = x :: rest /\
       extra_link_args x = ["/NODEFAULTLIB:libcmt"]).
Proof.
  intros Hok before after.
  destruct (build_extensions_returns H s Hok) as (Hafter & Hne & _).
  fold after in Hafter. fold before in Hafter, Hne. rewrite Hafter.
  split.
  - intros Hctype. unfold configured. cbn. rewrite Hctype. cbn.
    split; [reflexivity|]. split.
    + intros lib. rewrite list_elem_of_filter.
      destruct (Py.startswith "msvcr" lib); cbn; intuition congruence.
    + apply sublist_filter.
  - intros Hctype Hwin. unfold configured. cbn. rewrite Hctype, Hwin. cbn.
    destruct (extensions before) as [|x rest]; [done|].
    by eexists _, _.
Qed.

Lemma windows_toolchains_drop_default_runtime_witness :
  let mingw := start (tt : world windows_host) (fresh_command 0 0 "mingw32") in
  let msvc := start (tt : world windows_host) (fresh_command 0 0 "msvc") in
  dll_libraries (st_self mingw) = ["msvcr90"; "user32"; "msvcrt"; "kernel32"] /\
  dll_libraries (st_self (state_of (build_extensions windows_host mingw)))
    = ["user32"; "kernel32"] /\
  exists x rest,
    extensions (st_self (state_of (build_extensions windows_host msvc))) = x :: rest /\
    extra_link_args x = ["/NODEFAULTLIB:libcmt"].
Proof.
  cbn zeta. split; [reflexivity|]. split.
  - destruct (windows_toolchains_drop_default_runtime windows_host
                (start (tt : world windows_host) (fresh_command 0 0 "mingw32"))
                eq_refl) as [Hmingw _].
    destruct (Hmingw eq_refl) as [Heq _]. rewrite Heq. reflexivity.
  - destruct (windows_toolchains_drop_default_runtime windows_host
                (start (tt : world windows_host) (fresh_command 0 0 "msvc"))
                eq_refl) as [_ Hmsvc].
    exact (Hmsvc eq_refl eq_refl).
Defined.

(** C10 -- Whatever the configuration, also with [use_system_libcares]
    set, a run of [build_extensions] that reaches the hand-over to
    distutils has by then set the first extension's [extra_objects] to the
    one-element list holding the bundled artifact path ([cares.lib] under
    MSVC, [libcares.a] otherwise, inside [deps/c-ares]) and has added the
    bundled [src] directory to the include path. *)
Theorem build_extensions_attaches_bundled_artifact (H : host) (s : state H) :
  result_of (build_extensions H s) = Ok tt ->
  let artifact :=
    os_path_join H (os_path_join H "deps" "c-ares")
      (if String.eqb (compiler_type (st_self s)) "msvc" then "cares.lib"
       else "libcares.a") in
  let include := os_path_join H (os_path_join H "deps" "c-ares") "src" in
  (exists self before x rest,
      trace_of (build_extensions H s) = before ++ [EvBuildExtensions self] /\
      st_self (state_of (build_extensions H s)) = self /\
      extensions self = x :: rest /\
      extra_objects x = [artifact] /\
      EvCompiler (add_include_dir include) ∈ before) /\
  (os_sep H = "/" ->
     artifact = "deps/c-ares/" +:+
                (if String.eqb (compiler_type (st_self s)) "msvc" then "cares.lib"
                 else "libcares.a") /\
     include = "deps/c-ares/src").
Proof.
  intros Hok artifact include.
  destruct (build_extensions_returns H s Hok) as (Hafter & Hne & before & Htrace & Hin).
  split.
  - destruct (extensions (st_self s)) as [|x rest] eqn:Hexts; [done|].
    eexists (configured H (st_self s)), before, _, rest.
    split; [exact Htrace|]. split; [exact Hafter|].
    split; [unfold configured; cbn; rewrite Hexts; reflexivity|].
    split; [|exact Hin].
    destruct (negb _ && _ && _); reflexivity.
  - intros Hsep. unfold artifact, include, os_path_join. rewrite Hsep.
    by destruct (String.eqb (compiler_type (st_self s)) "msvc").
Qed.

Lemma build_extensions_attaches_bundled_artifact_witness :
  let s := start (tt : world new_libcares_host) (fresh_command 1 0 "unix") in
  use_system_libcares (st_self s) = 1 /\
  result_of (build_extensions new_libcares_host s) = Ok tt /\
  exists self before x rest,
    trace_of (build_extensions new_libcares_host s) = before ++ [EvBuildExtensions self] /\
    st_self (state_of (build_extensions new_libcares_host s)) = self /\
    extensions self = x :: rest /\
    extra_objects x = ["deps/c-ares/libcares.a"] /\
    EvCompiler (add_include_dir "deps/c-ares/src") ∈ before.
Proof.
  cbn zeta. split; [reflexivity|]. split; [reflexivity|].
  exact (proj1 (build_extensions_attaches_bundled_artifact new_libcares_host
                  (start (tt : world new_libcares_host) (fresh_command 1 0 "unix"))
                  eq_refl)).
Defined.

(** On Windows the same components are joined by a backslash. *)
Example artifact_on_windows :
  let s := start (tt : world windows_host) (fresh_command 0 0 "msvc") in
  cares_lib (st_self (state_of (build_extensions windows_host s)))
    = Some ("deps\c-ares\cares.lib") /\
  popen_requests (trace_of (build_extensions windows_host s)) = [].
Proof. split; reflexivity. Qed.

(** ** What the system-library branch hands to the compiler *)


(** [lstrip] takes the option off a word when what follows does not itself
    begin with one of the option's characters ... *)
Example lstrip_plain_words :
  map (Py.lstrip "-l") ["-lcares"; "-lrt"] = ["cares"; "rt"] /\
  map (Py.lstrip "-I") ["-I/usr/include"; "-I/opt/include"] = ["/usr/include"; "/opt/include"].
Proof. split; reflexivity. Qed.

(** ... and more than the option when it does. *)
Example lstrip_greedy_words :
  map (Py.lstrip "-l") ["-llzma"; "-lldap"] = ["zma"; "dap"] /\
  map (Py.lstrip "-I") ["-IInclude"] = ["nclude"] /\
  map (Py.lstrip "-L") ["-L-L/usr/lib"; "-LLibs"] = ["/usr/lib"; "ibs"].
Proof. repeat split; reflexivity. Qed.

(** C7 -- On a machine where [pkg-config --libs-only-l libcares] prints
    [-lcares -llzma], the library list handed to the compiler keeps the
    order of the two words but names the second library [zma]: [lstrip]
    removed the [l] of [lzma] together with the option [-l]. *)
Theorem library_name_loses_leading_l :
  let s := start (tt : world lzma_host) (fresh_command 1 0 "unix") in
  result_of (pkg_config_parse lzma_host "--libs-only-l" "libcares" s)
    = Ok ["cares"; "zma"] /\
  compiler_calls (trace_of (build_extensions lzma_host s))
    = [ add_library (PList ["cares"; "zma"]);
        add_library_dir (PList ["/usr/lib"]);
        set_include_dirs ["/usr/include"; "/usr/include"; "deps/c-ares/src"];
        set_runtime_library_dirs ["/usr/lib"];
        add_include_dir "deps/c-ares/src";
        add_library (PStr "rt") ].
Proof. split; reflexivity. Qed.

(** * Further properties of the script *)

(** ** Stripping and splitting *)

Section Stripping.

Lemma rstrip_cons set c t :
  Py.rstrip set (String c t) =
    match Py.rstrip set t with
    | EmptyString => if Py.mem_char c set then EmptyString else String c EmptyString
    | t' => String c t'
    end.
Proof. reflexivity. Qed.

(** [rstrip] cuts a run of characters of the set off the end, and what it
    leaves does not end with one. *)
Lemma rstrip_decompose set s :
  exists tail,
    s = Py.rstrip set s +:+ tail /\
    all_in set tail = true /\
    ends_outside set (Py.rstrip set s) = true.
Proof.
  induction s as [|c t (tail & Ht & Htail & Hend)]; [by exists EmptyString|].
  rewrite rstrip_cons.
  destruct (Py.rstrip set t) as [|d r] eqn:Hr.
  - change (t = tail) in Ht. subst t.
    destruct (Py.mem_char c set) eqn:Hc.
    + exists (String c tail). split; [reflexivity|]. split; [|reflexivity].
      cbn. by rewrite Hc.
    + exists tail. split; [reflexivity|]. split; [exact Htail|].
      cbn. by rewrite Hc.
  - exists tail. split; [|split; [exact Htail|exact Hend]].
    change (String c t = String c (String d r +:+ tail)). by rewrite <- Ht.
Qed.

(** A run of characters of the set at the end does not change the result. *)
Lemma rstrip_tail set s tail :
  all_in set tail = true -> Py.rstrip set (s +:+ tail) = Py.rstrip set s.
Proof.
  intros Htail.
  assert (Hall : Py.rstrip set tail = EmptyString).
  { induction tail as [|c t IH]; [done|]. cbn in Htail.
    apply andb_true_iff in Htail as [Hc Ht]. rewrite rstrip_cons, (IH Ht). by rewrite Hc. }
  induction s as [|c t IH]; [exact Hall|].
  change (String c t +:+ tail) with (String c (t +:+ tail)).
  by rewrite !rstrip_cons, IH.
Qed.




(** [lstrip] returns an end piece of its argument. *)
Lemma lstrip_suffix set s : exists p, s = p +:+ Py.lstrip set s.
Proof.
  induction s as [|c t [p Hp]]; [by exists EmptyString|].
  cbn [Py.lstrip]. destruct (Py.mem_char c set).
  - exists (String c p). change (String c t = String c (p +:+ Py.lstrip set t)).
    by rewrite <- Hp.
  - by exists EmptyString.
Qed.

Lemma no_space_append p s : no_space (p +:+ s) = true -> no_space s = true.
Proof.
  induction p as [|c p IH]; [done|].
  change (String c p +:+ s) with (String c (p +:+ s)). cbn [no_space].
  intros [_ Hs]%andb_true_iff. by apply IH.
Qed.

Lemma no_space_lstrip set s : no_space s = true -> no_space (Py.lstrip set s) = true.
Proof.
  intros Hs. destruct (lstrip_suffix set s) as [p Hp]. rewrite Hp in Hs.
  by apply no_space_append in Hs.
Qed.

Lemma no_space_of_list (l : list ascii) :
  Forall (fun c => Py.isspace c = false) l ->
  no_space (string_of_list_ascii l) = true.
Proof.
  induction 1 as [|c l Hc _ IH]; [done|]. cbn. by rewrite Hc, IH.
Qed.

(** The words of [split]: none is empty, none holds a blank. *)
Lemma split_aux_words cur s w :
  Forall (fun c => Py.isspace c = false) cur ->
  w ∈ Py.split_aux cur s -> w <> EmptyString /\ no_space w = true.
Proof.
  assert (Hflush : forall cur w,
             Forall (fun c => Py.isspace c = false) cur ->
             w ∈ match cur with
                 | [] => []
                 | _ => [string_of_list_ascii (rev cur)]
                 end ->
             w <> EmptyString /\ no_space w = true).
  { clear. intros cur w Hcur Hw. destruct cur as [|c cur].
    - by apply elem_of_nil in Hw.
    - apply list_elem_of_singleton in Hw as ->. split.
      + cbn [rev]. destruct (rev cur); discriminate.
      + apply no_space_of_list. by apply Forall_rev. }
  revert cur. induction s as [|c t IH]; intros cur Hcur; cbn [Py.split_aux].
  - by apply Hflush.
  - destruct (Py.isspace c) eqn:Hc.
    + intros [Hw|Hw]%elem_of_app; [by apply (Hflush cur)|].
      by apply (IH []).
    + apply IH. by constructor.
Qed.

End Stripping.

(** ** [build_extensions] stage by stage *)

Section Decomposition.

Variable H : host.

Lemma bind_ok {A B} (m : M H A) (k : A -> M H B) (s : state H) a s1 t1 :
  m s = (Ok a, s1, t1) -> bind m k s = prepend t1 (k a s1).
Proof. unfold bind, prepend. by intros ->. Qed.

Lemma bind_raise {A B} (m : M H A) (k : A -> M H B) (s : state H) e s1 t1 :
  m s = (Raise e, s1, t1) -> bind m k s = (Raise e, s1, t1).
Proof. unfold bind. by intros ->. Qed.

Lemma prepend_nil {A} (x : result A * state H * list event) : prepend [] x = x.
Proof. by destruct x as [[r s] t]. Qed.

Lemma bind_attr {A B} (f : cares_build_ext -> A) (k : A -> M H B) (s : state H) :
  bind (attr f) k s = k (f (st_self s)) s.
Proof. rewrite (bind_ok _ _ _ (f (st_self s)) s []); [apply prepend_nil|reflexivity]. Qed.

Lemma bind_assign {B} f (k : unit -> M H B) (s : state H) :
  bind (assign f) k s = k tt {| st_world := st_world s; st_self := f (st_self s) |}.
Proof.
  rewrite (bind_ok _ _ _ tt {| st_world := st_world s; st_self := f (st_self s) |} []);
    [apply prepend_nil|reflexivity].
Qed.

Lemma bind_ret_eq {A B} (a : A) (k : A -> M H B) (s : state H) : bind (ret a) k s = k a s.
Proof. rewrite (bind_ok _ _ _ a s []); [apply prepend_nil|reflexivity]. Qed.

Lemma bind_emit {B} e (k : unit -> M H B) (s : state H) :
  bind (emit e) k s = prepend [e] (k tt s).
Proof. by apply bind_ok. Qed.

Lemma bind_when_emit {B} (b : bool) e (k : unit -> M H B) (s : state H) :
  bind (when b (emit e)) k s = prepend (if b then [e] else []) (k tt s).
Proof. apply bind_ok. by destruct b. Qed.

(** A step that leaves the command object alone ends in the same object. *)
Lemma keeps_run {A} (m : M H A) (s : state H) :
  keeps_self m ->
  exists r w t, m s = (r, {| st_world := w; st_self := st_self s |}, t).
Proof.
  intros Hm. specialize (Hm s). unfold state_of in Hm.
  destruct (m s) as [[r [w o]] t]. cbn in Hm. subst o. by eexists _, _, _.
Qed.

Lemma assign_extension0_eq f (s : state H) :
  assign_extension0 H f s =
    match extensions (st_self s) with
    | [] => (Raise IndexError, s, [])
    | x :: rest =>
        (Ok tt,
         {| st_world := st_world s;
            st_self := set_extensions (f x :: rest) (st_self s) |}, [])
    end.
Proof.
  unfold assign_extension0. rewrite bind_attr.
  by destruct (extensions (st_self s)).
Qed.

Lemma platform_libraries_eq ctype (s : state H) x rest :
  extensions (st_self s) = x :: rest ->
  platform_libraries H ctype s =
    (Ok tt,
     {| st_world := st_world s;
        st_self :=
          set_extensions
            ((if negb (Py.startswith "linux" (sys_platform H))
                 && String.eqb (sys_platform H) "win32" && String.eqb ctype "msvc"
              then set_extra_link_args ["/NODEFAULTLIB:libcmt"] x else x) :: rest)
            (st_self s) |},
     platform_events H ctype).
Proof.
  intros Hexts.
  assert (Hsame : s = {| st_world := st_world s;
                         st_self := set_extensions (x :: rest) (st_self s) |}).
  { destruct s as [w o]. destruct o. cbn in *. by subst. }
  unfold platform_libraries, platform_events, compiler_do.
  destruct (Py.startswith "linux" (sys_platform H)); cbn [negb andb].
  { by rewrite Hsame at 1. }
  destruct (String.eqb (sys_platform H) "win32"); cbn [andb].
  2:{ by rewrite Hsame at 1. }
  destruct (String.eqb ctype "msvc"); cbn [when].
  - rewrite (bind_ok _ _ _ tt
               {| st_world := st_world s;
                  st_self := set_extensions
                               (set_extra_link_args ["/NODEFAULTLIB:libcmt"] x :: rest)
                               (st_self s) |}
               [EvCompiler (add_library (PStr "advapi32"))]).
    2:{ rewrite (bind_ok _ _ _ tt
                   {| st_world := st_world s;
                      st_self := set_extensions
                                   (set_extra_link_args ["/NODEFAULTLIB:libcmt"] x :: rest)
                                   (st_self s) |} []); [reflexivity|].
        by rewrite assign_extension0_eq, Hexts. }
    by rewrite !bind_emit.
  - rewrite (bind_ok _ _ _ tt s []); [|reflexivity].
    rewrite !bind_emit. cbn. by rewrite Hsame at 1.
Qed.

Lemma mingw_filter_eq (s : state H) :
  when (String.eqb (compiler_type (st_self s)) "mingw32")
    (bind (attr dll_libraries)
       (fun libs =>
          assign (set_dll_libraries
                    (filter (fun lib => negb (Py.startswith "msvcr" lib)) libs)))) s
  = (Ok tt, {| st_world := st_world s; st_self := configured_libs (st_self s) |}, []).
Proof.
  unfold configured_libs.
  destruct (String.eqb (compiler_type (st_self s)) "mingw32"); cbn [when].
  - by rewrite bind_attr.
  - by destruct s.
Qed.

Lemma mingw_link_eq ctype (s : state H) :
  when (String.eqb ctype "mingw32")
    (bind (compiler_do H (add_library_dir (PStr (cares_dir H))))
       (fun _ => compiler_do H (add_library (PStr "cares")))) s
  = (Ok tt, s, mingw_events H ctype).
Proof. unfold mingw_events. by destruct (String.eqb ctype "mingw32"). Qed.

Lemma configured_libs_type o : compiler_type (configured_libs o) = compiler_type o.
Proof. unfold configured_libs. by destruct (String.eqb (compiler_type o) "mingw32"). Qed.

(** [build_extensions] is three stages in a row: the system-library
    branch, [build_cares], and the configuration of compiler and extension.
    An exception in a stage ends the run there. *)
Lemma build_extensions_eq (s : state H) :
  build_extensions H s =
    let o := st_self s in
    match when (use_system_libcares o =? 1) (use_system H) s with
    | (Raise e, s1, t1) => (Raise e, s1, t1)
    | (Ok _, s1, t1) =>
        match when (use_system_libcares o =? 0) (build_cares H)
                {| st_world := st_world s1; st_self := prepared H o |} with
        | (Raise e, s2, t2) =>
            (Raise e, s2, t1 ++ macro_events (use_system_libcares o) ++ t2)
        | (Ok _, s2, t2) =>
            match extensions o with
            | [] =>
                (Raise IndexError, s2,
                 t1 ++ macro_events (use_system_libcares o) ++ t2
                    ++ mingw_events H (compiler_type o))
            | _ :: _ =>
                (Ok tt,
                 {| st_world := st_world s2; st_self := configured H o |},
                 t1 ++ macro_events (use_system_libcares o) ++ t2
                    ++ mingw_events H (compiler_type o)
                    ++ EvCompiler (add_include_dir (bundled_include_dir H))
                    :: platform_events H (compiler_type o)
                    ++ [EvBuildExtensions (configured H o)])
            end
        end
    end.
Proof.
  cbn zeta. set (o := st_self s).
  destruct (keeps_run (when (use_system_libcares o =? 1) (use_system H)) s)
    as (r1 & w1 & t1 & Hsys); [keeps|]. fold o in Hsys.
  destruct (keeps_run (when (use_system_libcares o =? 0) (build_cares H))
              {| st_world := w1; st_self := prepared H o |})
    as (r2 & w2 & t2 & Hcares); [keeps|]. cbn [st_self] in Hcares.
  unfold build_extensions. rewrite bind_attr. fold o. rewrite Hsys.
  destruct r1 as [[]|e]; [|by rewrite (bind_raise _ _ _ _ _ _ Hsys)].
  rewrite (bind_ok _ _ _ _ _ _ Hsys). unfold compiler_do at 1.
  rewrite bind_when_emit, bind_attr. cbn [st_self st_world].
  rewrite (bind_ok _ _ _ _ _ _
             (mingw_filter_eq {| st_world := w1; st_self := o |})), prepend_nil.
  rewrite bind_attr, bind_assign, bind_assign. cbn [st_self st_world].
  rewrite configured_libs_flag.
  change (set_cares_lib _ _) with (prepared H o).
  rewrite Hcares.
  destruct r2 as [[]|e]; [|by rewrite (bind_raise _ _ _ _ _ _ Hcares)].
  rewrite (bind_ok _ _ _ _ _ _ Hcares).
  rewrite (bind_ok _ _ _ _ _ _ (mingw_link_eq _ _)).
  rewrite bind_attr. cbn [st_self prepared set_cares_lib cares_lib].
  assert (Hexts : extensions (prepared H o) = extensions o).
  { unfold prepared. cbn. apply configured_libs_extensions. }
  unfold macro_events. cbn [st_world].
  destruct (extensions o) as [|x rest] eqn:Ho.
  - rewrite (bind_raise _ _ _ IndexError {| st_world := w2; st_self := prepared H o |} []).
    2:{ rewrite assign_extension0_eq. cbn [st_self st_world]. by rewrite Hexts. }
    unfold prepend. by rewrite app_nil_r.
  - assert (Hfinal :
      set_extensions
        ((if negb (Py.startswith "linux" (sys_platform H))
             && String.eqb (sys_platform H) "win32"
             && String.eqb (compiler_type o) "msvc"
          then set_extra_link_args ["/NODEFAULTLIB:libcmt"]
                 (set_extra_objects [artifact_path H (compiler_type o)] x)
          else set_extra_objects [artifact_path H (compiler_type o)] x) :: rest)
        (set_extensions
           (set_extra_objects [artifact_path H (compiler_type o)] x :: rest)
           (prepared H o))
      = configured H o).
    { clearbody o. destruct o. cbn in *. subst.
      unfold configured, prepared, configured_libs. cbn.
      by destruct (String.eqb compiler_type0 "mingw32"). }
    rewrite (bind_ok _ _ _ tt
               {| st_world := w2;
                  st_self := set_extensions
                               (set_extra_objects [artifact_path H (compiler_type o)] x
                                  :: rest) (prepared H o) |} []).
    2:{ rewrite assign_extension0_eq. cbn [st_self st_world]. by rewrite Hexts. }
    rewrite prepend_nil. unfold compiler_do at 1. rewrite bind_emit.
    rewrite (bind_ok _ _ _ _ _ _
               (platform_libraries_eq (compiler_type o)
                  {| st_world := w2;
                     st_self := set_extensions
                                  (set_extra_objects [artifact_path H (compiler_type o)] x
                                     :: rest) (prepared H o) |}
                  (set_extra_objects [artifact_path H (compiler_type o)] x) rest
                  eq_refl)).
    cbn [st_self st_world]. rewrite Hfinal, bind_attr. reflexivity.
Qed.

End Decomposition.

(** ** Which events a computation can produce *)

Section Events.

Variable H : host.
Variable P : event -> Prop.

Lemma emits_ret {A} (a : A) : emits P (@ret H A a).
Proof. intros s e Hin. by apply elem_of_nil in Hin. Qed.

Lemma emits_raise {A} x : emits P (@raise H A x).
Proof. intros s e Hin. by apply elem_of_nil in Hin. Qed.

Lemma emits_attr {A} (f : cares_build_ext -> A) : emits P (@attr H A f).
Proof. intros s e Hin. by apply elem_of_nil in Hin. Qed.

Lemma emits_assign f : emits P (@assign H f).
Proof. intros s e Hin. by apply elem_of_nil in Hin. Qed.

Lemma emits_emit e : P e -> emits P (@emit H e).
Proof. intros He s e' Hin. by apply list_elem_of_singleton in Hin as ->. Qed.

Lemma emits_bind {A B} (m : M H A) (k : A -> M H B) :
  emits P m -> (forall a, emits P (k a)) -> emits P (bind m k).
Proof.
  intros Hm Hk s e. specialize (Hm s). unfold bind, trace_of in *.
  destruct (m s) as [[[a|x] s1] t1]; cbn [snd] in *; [|apply Hm].
  specialize (Hk a s1). unfold trace_of in Hk.
  destruct (k a s1) as [[r s2] t2]; cbn [snd] in *.
  intros [Hin|Hin]%elem_of_app; auto.
Qed.

Lemma emits_try_catch {A} (m : M H A) (handler : exn -> M H A) :
  emits P m -> (forall x, emits P (handler x)) -> emits P (try_catch m handler).
Proof.
  intros Hm Hh s e. specialize (Hm s). unfold try_catch, trace_of in *.
  destruct (m s) as [[[a|x] s1] t1]; cbn [snd] in *; [apply Hm|].
  specialize (Hh x s1). unfold trace_of in Hh.
  destruct (handler x s1) as [[r s2] t2]; cbn [snd] in *.
  intros [Hin|Hin]%elem_of_app; auto.
Qed.

Lemma emits_when b (m : M H unit) : emits P m -> emits P (when b m).
Proof. destruct b; [done|]. intros _. apply emits_ret. Qed.

Lemma emits_run_process r : P (EvPopen r) -> emits P (run_process H r).
Proof.
  intros Hr s e. unfold run_process, trace_of.
  destruct (popen H r (st_world s)) as [[rc out err|errno] w]; cbn [snd];
    by intros ->%list_elem_of_singleton.
Qed.

Lemma emits_os_path_exists p : P (EvExists p) -> emits P (os_path_exists H p).
Proof. intros Hp s e. by intros ->%list_elem_of_singleton. Qed.

(** A silent [exec_process] produces its one request and nothing else. *)
Lemma emits_exec_process_silent c catch_enoent kw :
  P (EvPopen (exec_request c kw)) -> emits P (exec_process H c true catch_enoent kw).
Proof.
  intros Hr s e. rewrite exec_process_eq. unfold trace_of.
  destruct (popen H _ (st_world s)) as [[rc out err|errno] w]; cbn [snd written];
    by intros ->%list_elem_of_singleton.
Qed.

Lemma emits_exec_make_from_silent candidates c kw :
  (forall make, P (EvPopen (exec_request (ArgList (make :: c)) kw))) ->
  P (EvLog Warn LogPlainMakeOnBSD) ->
  emits P (exec_make_from H candidates c true kw).
Proof.
  intros Hr Hw. induction candidates as [|make rest IH]; [apply emits_raise|].
  cbn [exec_make_from]. apply emits_bind.
  - by apply emits_when, emits_emit.
  - intros _. apply emits_try_catch; [by apply emits_exec_process_silent|].
    intros [| errno | | |]; try apply emits_raise.
    destruct (negb (errno =? ENOENT)); [apply emits_raise|exact IH].
Qed.


End Events.

Lemma build_event_request (H : host) c env shell :
  build_event H
    (EvPopen (exec_request c {| cwd := Some (cares_dir H); env := env; shell := shell |})).
Proof. by split. Qed.

Lemma emits_clean (H : host) b : emits (build_event H) (clean H b).
Proof.
  unfold clean. destruct b; (apply emits_bind; [|intros _; apply emits_ret]).
  - apply emits_exec_process_silent, build_event_request.
  - apply emits_exec_make_from_silent; [intros make; apply build_event_request|done].
Qed.

Lemma emits_build (H : host) b : emits (build_event H) (build H b).
Proof.
  unfold build. apply emits_bind; [by apply emits_emit|intros _].
  destruct b; (apply emits_bind; [|intros _; apply emits_ret]).
  - apply emits_exec_process_silent, build_event_request.
  - apply emits_exec_make_from_silent; [intros make; apply build_event_request|done].
Qed.

Lemma emits_build_cares (H : host) : emits (build_event H) (build_cares H).
Proof.
  unfold build_cares.
  apply emits_bind; [apply emits_attr|intros ctype].
  apply emits_bind; [apply emits_attr|intros flag].
  apply emits_bind; [apply emits_when, emits_clean|intros _].
  apply emits_bind; [apply emits_attr|intros [lib|]]; [|apply emits_raise].
  apply emits_bind; [by apply emits_os_path_exists|intros present].
  destruct (negb present); [|by apply emits_emit].
  apply emits_bind; [by apply emits_emit|intros _; apply emits_build].
Qed.






(** ** Running commands: further properties *)

(** X1 -- An [OSError] of [Popen] other than ENOENT (permission denied,
    for instance) leaves [exec_process] unchanged, whatever [catch_enoent]
    says, after the one request and with nothing written. *)
Theorem exec_process_passes_other_oserrors (H : host) (c : cmdline)
    (silent catch_enoent : bool) (kw : kwargs) (s : state H) (errno : Z) (w : world H) :
  popen H (exec_request c kw) (st_world s) = (Failed errno, w) ->
  errno <> ENOENT ->
  exec_process H c silent catch_enoent kw s
    = (Raise (OSError errno), moved s w, [EvPopen (exec_request c kw)]).
Proof.
  intros Hrun Hne. apply Z.eqb_neq in Hne.
  by rewrite exec_process_eq, Hrun, Hne.
Qed.

Lemma exec_process_passes_other_oserrors_witness :
  let kw := {| cwd := None; env := None; shell := false |} in
  let s := start (tt : world locked_host) (fresh_command 0 0 "unix") in
  result_of (exec_process locked_host (ArgList ["make"]) true true kw s)
    = Raise (OSError 13).
Proof.
  cbn zeta.
  rewrite (exec_process_passes_other_oserrors locked_host (ArgList ["make"]) true true
             {| cwd := None; env := None; shell := false |}
             (start (tt : world locked_host) (fresh_command 0 0 "unix")) 13 tt
             eq_refl); [reflexivity|discriminate].
Defined.

(** X2 -- [exec_process] starts exactly one subprocess.  When it is not
    silent and the child ran to completion, the child's stdout and then its
    stderr are written out, also when the return code is nonzero and an
    error follows; otherwise nothing is written. *)
Theorem exec_process_echo (H : host) (c : cmdline) (silent catch_enoent : bool)
    (kw : kwargs) (s : state H) :
  trace_of (exec_process H c silent catch_enoent kw s) =
    EvPopen (exec_request c kw) ::
    match popen H (exec_request c kw) (st_world s) with
    | (Completed _ stdout stderr, _) =>
        if silent then [] else [EvWrite Stdout stdout; EvWrite Stderr stderr]
    | (Failed _, _) => []
    end.
Proof.
  rewrite exec_process_eq.
  by destruct (popen H _ (st_world s)) as [[rc out err|errno] w].
Qed.

(** X3 -- When the command is given as one string (as the MSVC build
    does), [cmdline[0]] is the first character of that string: on ENOENT
    the "not present" message names that character, not a program. *)
Theorem exec_process_string_names_first_character (H : host) (ch : ascii)
    (rest : string) (silent : bool) (kw : kwargs) (s : state H) (w : world H) :
  popen H (exec_request (ArgStr (String ch rest)) kw) (st_world s) = (Failed ENOENT, w) ->
  result_of (exec_process H (ArgStr (String ch rest)) silent true kw s)
    = Raise (DistutilsError
               (dq +:+ String ch EmptyString +:+ dq +:+ " is not present on this system")).
Proof. intros Hrun. by rewrite exec_process_eq, Hrun. Qed.

Lemma exec_process_string_names_first_character_witness :
  let kw := {| cwd := Some "deps\c-ares"; env := None; shell := true |} in
  let s := start (tt : world (bare_host "win32")) (fresh_command 0 1 "msvc") in
  result_of
    (exec_process (bare_host "win32") (ArgStr "cmd.exe /C vcbuild.bat clean") true true kw s)
    = Raise (DistutilsError (dq +:+ "c" +:+ dq +:+ " is not present on this system")).
Proof.
  cbn zeta.
  exact (exec_process_string_names_first_character (bare_host "win32") "c"
           "md.exe /C vcbuild.bat clean" true
           {| cwd := Some "deps\c-ares"; env := None; shell := true |}
           (start (tt : world (bare_host "win32")) (fresh_command 0 1 "msvc")) tt eq_refl).
Defined.

(** X4 -- [exec_make] logs the warning about plain make on a BSD exactly
    when the platform name contains [bsd] and [gmake] was reported missing,
    that is, exactly when it goes on to run plain [make] there. *)
Theorem plain_make_warning_iff (H : host) (c : list string) (silent : bool)
    (kw : kwargs) (s : state H) :
  EvLog Warn LogPlainMakeOnBSD ∈ trace_of (exec_make H c silent kw s) <->
  Py.contains "bsd" (sys_platform H) = true /\
  exists w, popen H (exec_request (ArgList ("gmake" :: c)) kw) (st_world s)
            = (Failed ENOENT, w).
Proof.
  assert (Hwritten : forall out err,
             EvLog Warn LogPlainMakeOnBSD ∉ written silent out err).
  { intros out err. destruct silent; cbn; rewrite ?elem_of_cons, ?elem_of_nil;
      intuition discriminate. }
  assert (Hgmake_quiet : plain_make_warning H "gmake" = []).
  { unfold plain_make_warning. by destruct (on_bsd H). }
  assert (Hmake_warns : plain_make_warning H "make"
                        = if on_bsd H then [EvLog Warn LogPlainMakeOnBSD] else []).
  { unfold plain_make_warning. by destruct (on_bsd H). }
  unfold exec_make, makes.
  change (Py.contains "bsd" (sys_platform H)) with (on_bsd H).
  destruct (on_bsd H) eqn:Hbsd.
  - rewrite exec_make_from_cons, Hgmake_quiet. cbn [app].
    destruct (popen H _ (st_world s)) as [[rc out err|errno] w] eqn:Hgmake.
    + unfold trace_of; cbn [snd]. rewrite elem_of_cons. split.
      * intros [?|Hin]; [discriminate|]. by apply Hwritten in Hin.
      * intros [_ [w' ?]]. discriminate.
    + destruct (errno =? ENOENT) eqn:Herrno.
      * apply Z.eqb_eq in Herrno as ->.
        rewrite exec_make_from_cons, Hmake_warns.
        cbn [moved st_world].
        split; [by eauto|]. intros _.
        destruct (popen H _ w) as [[rc out err|errno'] w'];
          [|destruct (errno' =? ENOENT)];
          unfold trace_of; cbn; rewrite !elem_of_cons; auto.
      * unfold trace_of; cbn [snd]. rewrite list_elem_of_singleton. split.
        -- discriminate.
        -- intros [_ [w' Heq]]. injection Heq as -> _. discriminate.
  - split; [|by intros [? _]].
    rewrite exec_make_from_cons, Hmake_warns. cbn [app].
    destruct (popen H _ (st_world s)) as [[rc out err|errno] w].
    + unfold trace_of; cbn [snd]. rewrite elem_of_cons.
      intros [?|Hin]; [discriminate|]. by apply Hwritten in Hin.
    + destruct (errno =? ENOENT); unfold trace_of; cbn;
        rewrite ?elem_of_cons, ?elem_of_nil; intuition discriminate.
Qed.

Lemma plain_make_warning_iff_witness :
  let kw := {| cwd := Some "deps/c-ares"; env := None; shell := false |} in
  EvLog Warn LogPlainMakeOnBSD
    ∈ trace_of (exec_make bsd_without_gmake ["libcares.a"] true kw
                  (start (tt : world bsd_without_gmake) (fresh_command 0 0 "unix"))) /\
  EvLog Warn LogPlainMakeOnBSD
    ∉ trace_of (exec_make chatty_bsd_host ["libcares.a"] true kw
                  (start (tt : world chatty_bsd_host) (fresh_command 0 0 "unix"))).
Proof.
  cbn zeta. split.
  - apply (plain_make_warning_iff bsd_without_gmake). split; [reflexivity|by exists tt].
  - intros Hin. apply (plain_make_warning_iff chatty_bsd_host) in Hin as [_ [w Hw]].
    discriminate Hw.
Defined.

(** ** [build_cares]: further properties *)

(** X5 -- With the flag unset and the artifact missing, [build_cares]
    checks the file, logs, and then does what [build] does: its result,
    final state and remaining trace are those of the build step, so it
    fails exactly when the build tool fails. *)
Theorem build_cares_builds_missing_artifact (H : host) (s : state H) (lib : string) :
  cares_clean_compile (st_self s) = 0 ->
  cares_lib (st_self s) = Some lib ->
  path_exists H lib (st_world s) = false ->
  build_cares H s =
    prepend [EvExists lib; EvLog Info LogNeedsCompile]
      (build H (String.eqb (compiler_type (st_self s)) "msvc") s).
Proof.
  intros Hflag Hlib Hex. unfold build_cares.
  rewrite !bind_attr, Hflag. cbn [Z.eqb negb when]. rewrite bind_ret_eq, bind_attr, Hlib.
  rewrite (bind_ok _ _ _ _ false s [EvExists lib]).
  2:{ unfold os_path_exists. by rewrite Hex. }
  cbn [negb]. rewrite bind_emit.
  by destruct (build H _ s) as [[r s'] t].
Qed.

Lemma build_cares_builds_missing_artifact_witness :
  let s := start (tt : world building_host)
             (prepared_command 0 "unix" "deps/c-ares/libcares.a") in
  build_cares building_host s =
    (Ok tt, s,
     [EvExists "deps/c-ares/libcares.a"; EvLog Info LogNeedsCompile;
      EvLog Info LogBuilding;
      EvPopen {| req_args := ArgList ["make"; "libcares.a"]; req_stdin_pipe := true;
                 req_cwd := Some "deps/c-ares";
                 req_env := Some (build_env building_host);
                 req_shell := false |}]).
Proof.
  cbn zeta.
  rewrite (build_cares_builds_missing_artifact building_host
             (start (tt : world building_host)
                (prepared_command 0 "unix" "deps/c-ares/libcares.a"))
             "deps/c-ares/libcares.a" eq_refl eq_refl eq_refl).
  reflexivity.
Defined.

(** X6 -- Under MSVC the build step starts exactly one subprocess, whatever
    its outcome: the string [cmd.exe /C vcbuild.bat] through the shell, in
    the bundled source directory, with the same [CFLAGS]-augmented copy of
    the environment that the make-based build gets. *)
Theorem msvc_build_request (H : host) (s : state H) :
  popen_requests (trace_of (build H true s)) =
    [ {| req_args := ArgStr "cmd.exe /C vcbuild.bat";
         req_stdin_pipe := true;
         req_cwd := Some (cares_dir H);
         req_env := Some (<["CFLAGS" := merged_cflags (os_environ H)]> (os_environ H));
         req_shell := true |} ].
Proof.
  unfold build. rewrite trace_bind.
  cbn [emit trace_of result_of state_of fst snd].
  rewrite popen_requests_app, trace_bind, popen_requests_app, exec_process_eq.
  destruct (popen H _ (st_world s)) as [[rc out err|errno] w];
    [destruct (rc =? 0)|]; reflexivity.
Qed.

(** X7 -- Cleaning does not by itself force a rebuild: when the flag is
    set, the cleaning command succeeds, and the artifact is still there in
    the world it leaves, [build_cares] ends without running the build. *)
Theorem clean_does_not_force_rebuild (H : host) (s s1 : state H) (lib : string)
    (t1 : list event) :
  cares_clean_compile (st_self s) <> 0 ->
  cares_lib (st_self s) = Some lib ->
  clean H (String.eqb (compiler_type (st_self s)) "msvc") s = (Ok tt, s1, t1) ->
  path_exists H lib (st_world s1) = true ->
  build_cares H s = (Ok tt, s1, t1 ++ [EvExists lib; EvLog Info LogNoNeed]).
Proof.
  intros Hflag Hlib Hclean Hex. apply Z.eqb_neq in Hflag.
  assert (Hself : st_self s1 = st_self s).
  { pose proof (keeps_clean H (String.eqb (compiler_type (st_self s)) "msvc") s) as K.
    by rewrite Hclean in K. }
  unfold build_cares. rewrite !bind_attr, Hflag. cbn [negb when].
  rewrite (bind_ok _ _ _ _ _ _ _ Hclean), bind_attr, Hself, Hlib.
  rewrite (bind_ok _ _ _ _ true s1 [EvExists lib]).
  2:{ unfold os_path_exists. by rewrite Hex. }
  reflexivity.
Qed.

Lemma clean_does_not_force_rebuild_witness :
  let s := start (tt : world (healthy_host "linux"))
             (prepared_command 1 "unix" "deps/c-ares/libcares.a") in
  popen_requests (trace_of (build_cares (healthy_host "linux") s))
    = [ {| req_args := ArgList ["make"; "clean"]; req_stdin_pipe := true;
           req_cwd := Some "deps/c-ares"; req_env := None; req_shell := false |} ].
Proof.
  cbn zeta.
  rewrite (clean_does_not_force_rebuild (healthy_host "linux")
             (start (tt : world (healthy_host "linux"))
                (prepared_command 1 "unix" "deps/c-ares/libcares.a"))
             (start (tt : world (healthy_host "linux"))
                (prepared_command 1 "unix" "deps/c-ares/libcares.a"))
             "deps/c-ares/libcares.a"
             [EvPopen {| req_args := ArgList ["make"; "clean"]; req_stdin_pipe := true;
                         req_cwd := Some "deps/c-ares"; req_env := None;
                         req_shell := false |}]
             ltac:(discriminate) eq_refl eq_refl eq_refl).
  reflexivity.
Defined.

(** X8 -- When the cleaning command fails, [build_cares] ends with that
    exception at once: the artifact is not looked at and nothing is built. *)
Theorem failed_clean_aborts_build_cares (H : host) (s s1 : state H) (e : exn)
    (t1 : list event) :
  cares_clean_compile (st_self s) <> 0 ->
  clean H (String.eqb (compiler_type (st_self s)) "msvc") s = (Raise e, s1, t1) ->
  build_cares H s = (Raise e, s1, t1).
Proof.
  intros Hflag Hclean. apply Z.eqb_neq in Hflag.
  unfold build_cares. rewrite !bind_attr, Hflag. cbn [negb when].
  by rewrite (bind_raise _ _ _ _ _ _ _ Hclean).
Qed.

Lemma failed_clean_aborts_build_cares_witness :
  let s := start (tt : world failing_host)
             (prepared_command 1 "unix" "deps/c-ares/libcares.a") in
  trace_of (build_cares failing_host s)
    = [EvPopen {| req_args := ArgList ["make"; "clean"]; req_stdin_pipe := true;
                  req_cwd := Some "deps/c-ares"; req_env := None;
                  req_shell := false |}].
Proof.
  cbn zeta.
  rewrite (failed_clean_aborts_build_cares failing_host
             (start (tt : world failing_host)
                (prepared_command 1 "unix" "deps/c-ares/libcares.a"))
             (start (tt : world failing_host)
                (prepared_command 1 "unix" "deps/c-ares/libcares.a"))
             (DistutilsError
                (return_value_msg 2 (ArgList ["make"; "clean"])
                   ("make: *** No rule to make target" +:+ String "010" (String "010" EmptyString))))
             [EvPopen {| req_args := ArgList ["make"; "clean"]; req_stdin_pipe := true;
                         req_cwd := Some "deps/c-ares"; req_env := None;
                         req_shell := false |}]
             ltac:(discriminate) eq_refl).
  reflexivity.
Defined.

(** X9 -- Whatever happens, [build_cares] only starts subprocesses with a
    piped stdin inside the bundled source directory, checks files and logs:
    it never calls a compiler method, never writes to the terminal and
    never hands over to distutils. *)
Theorem build_cares_stays_in_tree (H : host) (s : state H) (e : event) :
  e ∈ trace_of (build_cares H s) ->
  match e with
  | EvPopen r => req_stdin_pipe r = true /\ req_cwd r = Some (os_path_join H "deps" "c-ares")
  | EvExists _ | EvLog _ _ => True
  | EvWrite _ _ | EvCompiler _ | EvBuildExtensions _ => False
  end.
Proof. apply emits_build_cares. Qed.

Lemma build_cares_stays_in_tree_witness :
  let s := start (tt : world building_host)
             (prepared_command 1 "unix" "deps/c-ares/libcares.a") in
  let r := {| req_args := ArgList ["make"; "clean"]; req_stdin_pipe := true;
              req_cwd := Some "deps/c-ares"; req_env := None; req_shell := false |} in
  EvPopen r ∈ trace_of (build_cares building_host s) /\
  req_stdin_pipe r = true /\ req_cwd r = Some "deps/c-ares".
Proof.
  cbn zeta.
  assert (Hin : EvPopen {| req_args := ArgList ["make"; "clean"]; req_stdin_pipe := true;
                           req_cwd := Some "deps/c-ares"; req_env := None;
                           req_shell := false |}
                ∈ trace_of (build_cares building_host
                              (start (tt : world building_host)
                                 (prepared_command 1 "unix" "deps/c-ares/libcares.a")))).
  { apply list_elem_of_here. }
  split; [exact Hin|].
  exact (build_cares_stays_in_tree building_host _ _ Hin).
Defined.

(** X10 -- The cleaning command always runs with the inherited
    environment: no request of [clean] carries an environment of its own,
    so the [-fPIC] flag is not injected there. *)
Theorem clean_inherits_environment (H : host) (msvc : bool) (s : state H)
    (r : popen_request) :
  r ∈ popen_requests (trace_of (clean H msvc s)) ->
  req_env r = None /\ req_cwd r = Some (cares_dir H).
Proof.
  unfold clean.
  assert (Hret : forall (x : result string) (st : state H),
             popen_requests
               match x with
               | Ok a => trace_of (@ret H unit tt st)
               | Raise _ => []
               end = []).
  { by intros [a|x] st. }
  destruct msvc; rewrite trace_bind, popen_requests_app, Hret, app_nil_r.
  - rewrite exec_process_eq.
    destruct (popen H _ (st_world s)) as [[rc out err|errno] w];
      [destruct (rc =? 0)|]; by intros ->%list_elem_of_singleton.
  - intros (make & _ & ->)%exec_make_from_requests. by split.
Qed.

Lemma clean_inherits_environment_witness :
  let s := start (tt : world (healthy_host "linux"))
             (prepared_command 1 "unix" "deps/c-ares/libcares.a") in
  let r := {| req_args := ArgList ["make"; "clean"]; req_stdin_pipe := true;
              req_cwd := Some "deps/c-ares"; req_env := None; req_shell := false |} in
  r ∈ popen_requests (trace_of (clean (healthy_host "linux") false s)) /\
  req_env r = None /\ req_cwd r = Some "deps/c-ares".
Proof.
  cbn zeta.
  assert (Hin : {| req_args := ArgList ["make"; "clean"]; req_stdin_pipe := true;
                   req_cwd := Some "deps/c-ares"; req_env := None; req_shell := false |}
                ∈ popen_requests
                    (trace_of (clean (healthy_host "linux") false
                                 (start (tt : world (healthy_host "linux"))
                                    (prepared_command 1 "unix" "deps/c-ares/libcares.a"))))).
  { apply list_elem_of_here. }
  split; [exact Hin|].
  exact (clean_inherits_environment (healthy_host "linux") false _ _ Hin).
Defined.

(** ** The pkg-config helpers: further properties *)

(** X11 -- [pkg_config_version_check] starts exactly one subprocess, the
    [--exists] query, and has only two outcomes: it returns, or it raises
    [SystemExit] with the "not found" message.  No other exception leaves
    it. *)
Theorem version_check_has_one_error (H : host) (pkg version : string) (s : state H) :
  (result_of (pkg_config_version_check H pkg version s) = Ok tt \/
   result_of (pkg_config_version_check H pkg version s)
     = Raise (SystemExit
                (ExitText ("Error: " +:+ pkg +:+ " >= " +:+ version +:+ " not found")))) /\
  popen_requests (trace_of (pkg_config_version_check H pkg version s))
    = [call_request
         ("pkg-config --print-errors --exists " +:+ dq +:+ pkg +:+ " >= " +:+ version
            +:+ dq)].
Proof.
  split.
  - rewrite pkg_config_version_check_result.
    destruct (result_of (call H _ None s)); [by left|by right].
  - unfold pkg_config_version_check, bind, try_catch. rewrite call_eq.
    fold (version_check_command pkg version).
    destruct (popen H _ (st_world s)) as [[rc out err|errno] w];
      [destruct (rc =? 0)|]; reflexivity.
Qed.

(** X12 -- A failure of [Popen] itself, with any errno, is reported by the
    version check as the same "not found" message as a version that is too
    old; that it was an [OSError] is only logged. *)
Theorem version_check_hides_oserror (H : host) (pkg version : string) (s : state H)
    (errno : Z) (w : world H) :
  popen H (call_request (version_check_command pkg version)) (st_world s)
    = (Failed errno, w) ->
  pkg_config_version_check H pkg version s =
    (Raise (SystemExit (ExitText (not_found_msg pkg version))), moved s w,
     [EvPopen (call_request (version_check_command pkg version));
      EvLog Error (LogExcType ClsOSError)]).
Proof.
  intros Hrun. unfold pkg_config_version_check, bind, try_catch.
  by rewrite call_eq, Hrun.
Qed.

Lemma version_check_hides_oserror_witness :
  result_of
    (pkg_config_version_check locked_host "libcares" "1.11"
       (start (tt : world locked_host) (fresh_command 1 0 "unix")))
    = Raise (SystemExit (ExitText "Error: libcares >= 1.11 not found")).
Proof.
  rewrite (version_check_hides_oserror locked_host "libcares" "1.11"
             (start (tt : world locked_host) (fresh_command 1 0 "unix")) 13 tt eq_refl).
  reflexivity.
Defined.



(** X14 -- No word returned by [pkg_config_parse] holds a blank: the
    output is cut at every run of blanks, so a directory whose name
    contains a space arrives as several entries. *)
Theorem pkg_config_parse_words_have_no_blank (H : host) (opt pkg : string)
    (s : state H) (words : list string) :
  result_of (pkg_config_parse H opt pkg s) = Ok words ->
  Forall (fun word => no_space word = true) words.
Proof.
  unfold pkg_config_parse, bind, result_of. rewrite call_eq.
  destruct (popen H _ (st_world s)) as [[rc out err|errno] w]; [|discriminate].
  destruct (rc =? 0); [|discriminate]. cbn. intros [= <-].
  apply Forall_map, Forall_forall. intros word Hword. cbn.
  apply no_space_lstrip. by apply (split_aux_words [] out word).
Qed.

Lemma pkg_config_parse_words_have_no_blank_witness :
  let s := start (tt : world spaced_host) (fresh_command 1 0 "unix") in
  result_of (pkg_config_parse spaced_host "--cflags-only-I" "libcares" s)
    = Ok ["/opt/my"; "libs/include"] /\
  Forall (fun word => no_space word = true) ["/opt/my"; "libs/include"].
Proof.
  cbn zeta. split; [reflexivity|].
  exact (pkg_config_parse_words_have_no_blank spaced_host "--cflags-only-I" "libcares"
           (start (tt : world spaced_host) (fresh_command 1 0 "unix")) _ eq_refl).
Defined.





(** X16 -- The text that follows [stderr output was:] in the error message
    of [exec_process] is the captured stderr with the run of newlines at
    its end cut off: stderr is that text followed by newlines only, and the
    text does not end with a newline. *)
Theorem error_message_stderr_text (H : host) (c : cmdline) (silent catch_enoent : bool)
    (kw : kwargs) (s : state H) (returncode : Z) (stdout stderr : string) (w : world H) :
  popen H (exec_request c kw) (st_world s) = (Completed returncode stdout stderr, w) ->
  returncode <> 0 ->
  exists text tail,
    stderr = text +:+ tail /\
    all_in newline tail = true /\
    ends_outside newline text = true /\
    result_of (exec_process H c silent catch_enoent kw s)
      = Raise (DistutilsError
                 ("Got return value " +:+ Py.fmt_d returncode +:+ " while executing "
                    +:+ dq +:+ cmdline_join c +:+ dq +:+ ", stderr output was:"
                    +:+ newline +:+ text)).
Proof.
  intros Hrun Hne. apply Z.eqb_neq in Hne.
  destruct (rstrip_decompose newline stderr) as (tail & Hsplit & Htail & Hend).
  exists (Py.rstrip newline stderr), tail.
  split; [exact Hsplit|]. split; [exact Htail|]. split; [exact Hend|].
  by rewrite exec_process_eq, Hrun, Hne.
Qed.

Lemma error_message_stderr_text_witness :
  exists text tail,
    "make: *** No rule to make target" +:+ String "010" (String "010" EmptyString)
      = text +:+ tail /\
    all_in newline tail = true /\
    ends_outside newline text = true /\
    result_of
      (exec_process failing_host (ArgList ["make"; "clean"]) true true
         {| cwd := None; env := None; shell := false |}
         (start (tt : world failing_host) (fresh_command 0 1 "unix")))
      = Raise (DistutilsError
                 ("Got return value " +:+ Py.fmt_d 2 +:+ " while executing "
                    +:+ dq +:+ "make clean" +:+ dq +:+ ", stderr output was:"
                    +:+ newline +:+ text)).
Proof.
  exact (error_message_stderr_text failing_host (ArgList ["make"; "clean"]) true true
           {| cwd := None; env := None; shell := false |}
           (start (tt : world failing_host) (fresh_command 0 1 "unix"))
           2 EmptyString
           ("make: *** No rule to make target" +:+ String "010" (String "010" EmptyString))
           tt eq_refl ltac:(discriminate)).
Defined.

(** ** [build_extensions]: further properties *)

Section Stages.

Variable H : host.

(** Where an event of [build_extensions] can come from. *)
Lemma build_extensions_events (s : state H) (e : event) :
  e ∈ trace_of (build_extensions H s) ->
  let o := st_self s in
  e ∈ trace_of (when (use_system_libcares o =? 1) (use_system H) s) \/
  e ∈ macro_events (use_system_libcares o) \/
  (exists w, e ∈ trace_of (when (use_system_libcares o =? 0) (build_cares H)
                             {| st_world := w; st_self := prepared H o |})) \/
  e ∈ mingw_events H (compiler_type o) \/
  e = EvCompiler (add_include_dir (bundled_include_dir H)) \/
  e ∈ platform_events H (compiler_type o) \/
  e = EvBuildExtensions (configured H o).
Proof.
  cbn zeta. rewrite build_extensions_eq. cbn zeta.
  destruct (when (use_system_libcares (st_self s) =? 1) (use_system H) s)
    as [[[[]|x] s1] t1]; [|by left].
  destruct (when (use_system_libcares (st_self s) =? 0) (build_cares H)
              {| st_world := st_world s1; st_self := prepared H (st_self s) |})
    as [[[[]|x] s2] t2] eqn:Hcares.
  - assert (Ht2 : forall e', e' ∈ t2 ->
               exists w, e' ∈ trace_of
                 (when (use_system_libcares (st_self s) =? 0) (build_cares H)
                    {| st_world := w; st_self := prepared H (st_self s) |})).
    { intros e' He'. exists (st_world s1). by rewrite Hcares. }
    destruct (extensions (st_self s)); unfold trace_of; cbn [snd];
      rewrite !elem_of_app, ?elem_of_cons, ?elem_of_app, ?list_elem_of_singleton;
      intuition auto.
  - unfold trace_of at 1; cbn [snd]. rewrite !elem_of_app.
    intros [?|[?|Hin]]; auto.
    right; right; left. exists (st_world s1). by rewrite Hcares.
Qed.

Lemma macro_events_compiler system e :
  e ∈ macro_events system -> exists c, e = EvCompiler c.
Proof.
  unfold macro_events. destruct (system =? 0).
  - intros ->%list_elem_of_singleton. by eexists.
  - intros Hin. by apply elem_of_nil in Hin.
Qed.

Lemma mingw_events_compiler ctype e :
  e ∈ mingw_events H ctype -> exists c, e = EvCompiler c.
Proof.
  unfold mingw_events. destruct (String.eqb ctype "mingw32").
  - rewrite !elem_of_cons. intros [->|[->|Hin]]; eauto. by apply elem_of_nil in Hin.
  - intros Hin. by apply elem_of_nil in Hin.
Qed.

Lemma platform_events_compiler ctype e :
  e ∈ platform_events H ctype -> exists c, e = EvCompiler c.
Proof.
  unfold platform_events.
  destruct (Py.startswith "linux" (sys_platform H)).
  { intros ->%list_elem_of_singleton. by eexists. }
  destruct (String.eqb (sys_platform H) "win32");
    [|intros Hin; by apply elem_of_nil in Hin].
  destruct (String.eqb ctype "msvc"); cbn; rewrite !elem_of_cons;
    intros Hin; repeat destruct Hin as [->|Hin]; eauto; by apply elem_of_nil in Hin.
Qed.

End Stages.



(** X18 -- With [use_system_libcares] set to 0, [build_extensions] first
    defines the macro [PYCARES_BUNDLED]; every subprocess it starts has a
    piped stdin and runs inside the bundled source directory, so pkg-config
    is never asked; nothing is written to the terminal. *)
Theorem bundled_build_never_queries (H : host) (s : state H) :
  use_system_libcares (st_self s) = 0 ->
  (exists rest,
      trace_of (build_extensions H s)
        = EvCompiler (define_macro "PYCARES_BUNDLED" 1) :: rest) /\
  (forall e, e ∈ trace_of (build_extensions H s) ->
     match e with
     | EvPopen r => req_stdin_pipe r = true /\ req_cwd r = Some (cares_dir H)
     | EvWrite _ _ => False
     | EvExists _ | EvLog _ _ | EvCompiler _ | EvBuildExtensions _ => True
     end).
Proof.
  intros Hsys. split.
  - rewrite build_extensions_eq. cbn zeta. rewrite Hsys. cbn [Z.eqb when ret macro_events].
    destruct (build_cares H _) as [[[[]|x] s2] t2];
      [destruct (extensions (st_self s))|]; by eexists.
  - intros e Hin. apply build_extensions_events in Hin. cbn zeta in Hin.
    rewrite Hsys in Hin. cbn [Z.eqb when] in Hin.
    destruct Hin as [Hin|[Hin|[[w Hin]|[Hin|[-> |[Hin| ->]]]]]]; try done.
    + by apply elem_of_nil in Hin.
    + by apply macro_events_compiler in Hin as [c ->].
    + apply emits_build_cares in Hin. by destruct e.
    + by apply mingw_events_compiler in Hin as [c ->].
    + by apply platform_events_compiler in Hin as [c ->].
Qed.

Lemma bundled_build_never_queries_witness :
  let s := start (tt : world building_host) (fresh_command 0 0 "unix") in
  use_system_libcares (st_self s) = 0 /\
  exists rest,
    trace_of (build_extensions building_host s)
      = EvCompiler (define_macro "PYCARES_BUNDLED" 1) :: rest.
Proof.
  cbn zeta. split; [reflexivity|].
  exact (proj1 (bundled_build_never_queries building_host
                  (start (tt : world building_host) (fresh_command 0 0 "unix"))
                  eq_refl)).
Defined.

Lemma version_check_no_compiler_call (H : host) pkg version (s : state H) :
  compiler_calls (trace_of (pkg_config_version_check H pkg version s)) = [].
Proof.
  unfold pkg_config_version_check, bind, try_catch. rewrite call_eq.
  destruct (popen H _ (st_world s)) as [[rc out err|errno] w];
    [destruct (rc =? 0)|]; reflexivity.
Qed.

(** X20 -- With [use_system_libcares] set to 1, a version check that
    raises is all that [build_extensions] does: same exception, same final
    state, same trace.  The command object is as it was and no compiler
    method has been called. *)
Theorem failed_version_check_ends_build (H : host) (s : state H) (e : exn) :
  use_system_libcares (st_self s) = 1 ->
  result_of (pkg_config_version_check H "libcares"
               (libcares_version_required (st_self s)) s) = Raise e ->
  build_extensions H s
    = pkg_config_version_check H "libcares" (libcares_version_required (st_self s)) s /\
  st_self (state_of (build_extensions H s)) = st_self s /\
  compiler_calls (trace_of (build_extensions H s)) = [].
Proof.
  intros Hsys Hcheck.
  assert (Heq : build_extensions H s
                = pkg_config_version_check H "libcares"
                    (libcares_version_required (st_self s)) s).
  { rewrite build_extensions_eq. cbn zeta. rewrite Hsys. cbn [Z.eqb Pos.eqb when].
    unfold use_system. rewrite bind_attr.
    destruct (pkg_config_version_check H "libcares" _ s) as [[r s1] t1] eqn:Hrun.
    unfold result_of in Hcheck; cbn [fst] in Hcheck. subst r.
    by rewrite (bind_raise _ _ _ _ _ _ _ Hrun). }
  rewrite Heq. split; [reflexivity|]. split.
  - apply keeps_pkg_config_version_check.
  - apply version_check_no_compiler_call.
Qed.

Lemma failed_version_check_ends_build_witness :
  let s := start (tt : world old_libcares_host) (fresh_command 1 0 "mingw32") in
  result_of (build_extensions old_libcares_host s)
    = Raise (SystemExit (ExitText "Error: libcares >= 1.11 not found")) /\
  st_self (state_of (build_extensions old_libcares_host s)) = fresh_command 1 0 "mingw32" /\
  compiler_calls (trace_of (build_extensions old_libcares_host s)) = [].
Proof.
  cbn zeta.
  destruct (failed_version_check_ends_build old_libcares_host
              (start (tt : world old_libcares_host) (fresh_command 1 0 "mingw32"))
              (SystemExit (ExitText "Error: libcares >= 1.11 not found"))
              eq_refl eq_refl) as (Heq & Hself & Hcalls).
  split; [by rewrite Heq|]. split; [exact Hself|exact Hcalls].
Defined.

(** X21 -- With [use_system_libcares] set to 0, a failing [build_cares]
    ends [build_extensions] with the same exception right after the macro
    definition: no library or include directory is added and the extension
    list is as it was. *)
Theorem failed_build_ends_build_extensions (H : host) (s s2 : state H) (e : exn)
    (t2 : list event) :
  use_system_libcares (st_self s) = 0 ->
  build_cares H {| st_world := st_world s; st_self := prepared H (st_self s) |}
    = (Raise e, s2, t2) ->
  build_extensions H s
    = (Raise e, s2, EvCompiler (define_macro "PYCARES_BUNDLED" 1) :: t2) /\
  extensions (st_self s2) = extensions (st_self s) /\
  compiler_calls (trace_of (build_extensions H s)) = [define_macro "PYCARES_BUNDLED" 1].
Proof.
  intros Hsys Hcares.
  assert (Heq : build_extensions H s
                = (Raise e, s2, EvCompiler (define_macro "PYCARES_BUNDLED" 1) :: t2)).
  { rewrite build_extensions_eq. cbn zeta. rewrite Hsys.
    cbn [Z.eqb when ret macro_events st_world]. by rewrite Hcares. }
  split; [exact Heq|]. split.
  - pose proof (keeps_build_cares H
                  {| st_world := st_world s; st_self := prepared H (st_self s) |}) as K.
    rewrite Hcares in K. unfold state_of in K; cbn in K. rewrite K.
    unfold prepared. cbn. apply configured_libs_extensions.
  - rewrite Heq. unfold trace_of; cbn [snd].
    change (compiler_calls (EvCompiler ?c :: ?t)) with (c :: compiler_calls t).
    f_equal.
    assert (Hev : forall x, x ∈ t2 -> build_event H x).
    { intros x Hx. apply (emits_build_cares H
                            {| st_world := st_world s; st_self := prepared H (st_self s) |}).
      by rewrite Hcares. }
    clear -Hev. induction t2 as [|x t IH]; [done|].
    assert (Hx := Hev x (list_elem_of_here _ _)).
    assert (Ht : compiler_calls t = []).
    { apply IH. intros y Hy. apply Hev. by apply list_elem_of_further. }
    destruct x; try done; exact Ht.
Qed.

Lemma failed_build_ends_build_extensions_witness :
  let s := start (tt : world failing_host) (fresh_command 0 0 "unix") in
  result_of (build_extensions failing_host s)
    = Raise (DistutilsError
               (return_value_msg 2 (ArgList ["make"; "libcares.a"])
                  "make: *** No rule to make target")) /\
  extensions (st_self (state_of (build_extensions failing_host s)))
    = [ {| extra_objects := []; extra_link_args := [] |} ].
Proof.
  cbn zeta.
  destruct (failed_build_ends_build_extensions failing_host
              (start (tt : world failing_host) (fresh_command 0 0 "unix"))
              _ _ _ eq_refl eq_refl) as (Heq & Hexts & _).
  rewrite Heq. split; [reflexivity|exact Hexts].
Defined.

(** X22 -- On an empty extension list [build_extensions] never returns
    normally: some exception always ends it. *)
Theorem no_extension_no_success (H : host) (s : state H) :
  extensions (st_self s) = [] ->
  exists e, result_of (build_extensions H s) = Raise e.
Proof.
  intros Hexts.
  destruct (result_of (build_extensions H s)) as [[]|e] eqn:Hres; [|by exists e].
  by destruct (build_extensions_returns H s Hres) as (_ & Hne & _).
Qed.

Lemma no_extension_no_success_witness :
  let s := start (tt : world building_host) command_without_extensions in
  result_of (build_extensions building_host s) = Raise IndexError /\
  map req_args (popen_requests (trace_of (build_extensions building_host s)))
    = [ArgList ["make"; "libcares.a"]].
Proof.
  cbn zeta. split; [|reflexivity].
  destruct (no_extension_no_success building_host
              (start (tt : world building_host) command_without_extensions) eq_refl)
    as [e He].
  rewrite He. revert He. vm_compute. by intros [= <-].
Defined.

(** X23 -- A run of [build_extensions] that returns leaves the two flags,
    the required version and the compiler type as they were, sets [force]
    to the clean flag, keeps every extension after the first unchanged, and
    changes [dll_libraries] only under mingw32 and link arguments only
    under MSVC on win32. *)
Theorem build_extensions_frame (H : host) (s : state H) :
  result_of (build_extensions H s) = Ok tt ->
  let before := st_self s in
  let after := st_self (state_of (build_extensions H s)) in
  cares_clean_compile after = cares_clean_compile before /\
  use_system_libcares after = use_system_libcares before /\
  libcares_version_required after = libcares_version_required before /\
  compiler_type after = compiler_type before /\
  force after = cares_clean_compile before /\
  tail (extensions after) = tail (extensions before) /\
  (compiler_type before <> "mingw32" -> dll_libraries after = dll_libraries before) /\
  (~ (sys_platform H = "win32" /\ compiler_type before = "msvc") ->
   map extra_link_args (extensions after) = map extra_link_args (extensions before)).
Proof.
  intros Hok before after.
  destruct (build_extensions_returns H s Hok) as (Hafter & _ & _).
  fold after in Hafter. fold before in Hafter. rewrite Hafter.
  unfold configured. cbn.
  repeat split.
  - by destruct (extensions before).
  - intros Hne. apply String.eqb_neq in Hne. by rewrite Hne.
  - intros Hne. destruct (extensions before) as [|x rest]; [done|].
    destruct (String.eqb (sys_platform H) "win32") eqn:Hwin;
      [|by rewrite andb_false_r].
    destruct (String.eqb (compiler_type before) "msvc") eqn:Hmsvc;
      [|by rewrite andb_false_r].
    apply String.eqb_eq in Hwin, Hmsvc. by destruct Hne.
Qed.

Lemma build_extensions_frame_witness :
  let s := start (tt : world windows_host) (command_with_two_extensions "mingw32") in
  extensions (st_self (state_of (build_extensions windows_host s)))
    = [ {| extra_objects := ["deps\c-ares\libcares.a"]; extra_link_args := ["-s"] |};
        {| extra_objects := ["other.o"]; extra_link_args := ["-g"] |} ] /\
  force (st_self (state_of (build_extensions windows_host s))) = 1 /\
  map extra_link_args (extensions (st_self (state_of (build_extensions windows_host s))))
    = [["-s"]; ["-g"]].
Proof.
  cbn zeta.
  destruct (build_extensions_frame windows_host
              (start (tt : world windows_host) (command_with_two_extensions "mingw32"))
              eq_refl) as (_ & _ & _ & _ & Hforce & _ & _ & Hlink).
  split; [reflexivity|]. split; [exact Hforce|].
  apply Hlink. intros [_ Hmsvc]. discriminate Hmsvc.
Defined.

Lemma compiler_calls_app (t1 t2 : list event) :
  compiler_calls (t1 ++ t2) = compiler_calls t1 ++ compiler_calls t2.
Proof. apply omap_app. Qed.

Lemma build_events_no_compiler_call (H : host) (t : list event) :
  (forall x, x ∈ t -> build_event H x) -> compiler_calls t = [].
Proof.
  induction t as [|x t IH]; [done|]. intros Hev.
  assert (Hx := Hev x (list_elem_of_here _ _)).
  assert (Ht : compiler_calls t = []).
  { apply IH. intros y Hy. apply Hev. by apply list_elem_of_further. }
  destruct x; try done; exact Ht.
Qed.

(** X24 -- A bundled build that returns has called the compiler, in this
    order and nothing else: [define_macro] for [PYCARES_BUNDLED]; under
    mingw32 [add_library_dir] for the source directory and [add_library]
    for [cares]; [add_include_dir] for the bundled [src]; then [rt] on a
    platform whose name starts with [linux], on win32 [advapi32] (MSVC
    only), [iphlpapi], [psapi] and [ws2_32], and no library elsewhere. *)
Theorem bundled_build_compiler_calls (H : host) (s : state H) :
  use_system_libcares (st_self s) = 0 ->
  result_of (build_extensions H s) = Ok tt ->
  let ctype := compiler_type (st_self s) in
  compiler_calls (trace_of (build_extensions H s)) =
    [define_macro "PYCARES_BUNDLED" 1]
    ++ (if String.eqb ctype "mingw32"
        then [add_library_dir (PStr (cares_dir H)); add_library (PStr "cares")]
        else [])
    ++ [add_include_dir (os_path_join H (cares_dir H) "src")]
    ++ (if Py.startswith "linux" (sys_platform H) then [add_library (PStr "rt")]
        else if String.eqb (sys_platform H) "win32" then
          (if String.eqb ctype "msvc" then [add_library (PStr "advapi32")] else [])
          ++ [add_library (PStr "iphlpapi"); add_library (PStr "psapi");
              add_library (PStr "ws2_32")]
        else []).
Proof.
  intros Hsys Hok ctype. revert Hok.
  rewrite build_extensions_eq. cbn zeta. rewrite Hsys.
  cbn [Z.eqb when ret macro_events st_world]. fold ctype.
  destruct (build_cares H _) as [[[[]|x] s2] t2] eqn:Hcares; [|discriminate].
  destruct (extensions (st_self s)); [discriminate|]. intros _.
  assert (Ht2 : compiler_calls t2 = []).
  { apply (build_events_no_compiler_call H). intros x Hx.
    apply (emits_build_cares H
             {| st_world := st_world s; st_self := prepared H (st_self s) |}).
    by rewrite Hcares. }
  unfold trace_of; cbn [snd app].
  change (compiler_calls (EvCompiler ?c :: ?t)) with (c :: compiler_calls t).
  rewrite !compiler_calls_app, Ht2. cbn [app]. f_equal.
  unfold mingw_events, platform_events.
  destruct (String.eqb ctype "mingw32"), (Py.startswith "linux" (sys_platform H)),
    (String.eqb (sys_platform H) "win32"), (String.eqb ctype "msvc"); reflexivity.
Qed.

Lemma bundled_build_compiler_calls_witness :
  let s := start (tt : world windows_host) (command_with_two_extensions "msvc") in
  compiler_calls (trace_of (build_extensions windows_host s)) =
    [ define_macro "PYCARES_BUNDLED" 1;
      add_include_dir "deps\c-ares\src";
      add_library (PStr "advapi32"); add_library (PStr "iphlpapi");
      add_library (PStr "psapi"); add_library (PStr "ws2_32") ].
Proof.
  cbn zeta.
  rewrite (bundled_build_compiler_calls windows_host
             (start (tt : world windows_host) (command_with_two_extensions "msvc"))
             eq_refl eq_refl).
  reflexivity.
Defined.

Lemma build_cares_unflagged_head (H : host) (s : state H) lib :
  cares_clean_compile (st_self s) = 0 ->
  cares_lib (st_self s) = Some lib ->
  exists rest, trace_of (build_cares H s) = EvExists lib :: rest.
Proof.
  intros Hflag Hlib. unfold build_cares.
  rewrite !bind_attr, Hflag. cbn [Z.eqb negb when]. rewrite bind_ret_eq, bind_attr, Hlib.
  rewrite (bind_ok _ _ _ _ (path_exists H lib (st_world s)) s [EvExists lib]);
    [|reflexivity].
  match goal with |- context [prepend _ ?x] => destruct x as [[r s'] t] end.
  by eexists.
Qed.

(** X26 -- With the options as [initialize_options] sets them, whatever
    the compiler and the required version, [build_extensions] builds the
    bundled copy: it defines [PYCARES_BUNDLED] and then looks for the
    artifact at once, without asking pkg-config and without cleaning. *)
Theorem default_options_build_bundled (H : host) (w : world H) (main_version : string)
    (o : cares_build_ext) :
  exists rest,
    trace_of (build_extensions H (start w (initialize_options main_version o)))
      = EvCompiler (define_macro "PYCARES_BUNDLED" 1)
          :: EvExists (os_path_join H (cares_dir H) (artifact_name (compiler_type o)))
          :: rest.
Proof.
  rewrite build_extensions_eq. cbn zeta.
  cbn [start st_self st_world initialize_options use_system_libcares Z.eqb when ret
       macro_events].
  destruct (build_cares_unflagged_head H
              {| st_world := w; st_self := prepared H (initialize_options main_version o) |}
              (os_path_join H (cares_dir H) (artifact_name (compiler_type o))))
    as [rest Hhead].
  { cbn [st_self]. unfold prepared. cbn. apply configured_libs_flag. }
  { reflexivity. }
  unfold trace_of in Hhead.
  destruct (build_cares H _) as [[[[]|x] s2] t2]; cbn [snd] in Hhead; subst t2;
    [destruct (extensions (initialize_options main_version o))|];
    by eexists.
Qed.



Lemma pkg_config_parse_one_request (H : host) opt pkg (s : state H) :
  popen_requests (trace_of (pkg_config_parse H opt pkg s))
    = [call_request (parse_command opt pkg)].
Proof.
  unfold pkg_config_parse, bind. rewrite call_eq.
  destruct (popen H _ (st_world s)) as [[rc out err|errno] w];
    [destruct (rc =? 0)|]; reflexivity.
Qed.

Lemma version_check_one_request (H : host) pkg version (s : state H) :
  popen_requests (trace_of (pkg_config_version_check H pkg version s))
    = [call_request (version_check_command pkg version)].
Proof.
  unfold pkg_config_version_check, bind, try_catch. rewrite call_eq.
  destruct (popen H _ (st_world s)) as [[rc out err|errno] w];
    [destruct (rc =? 0)|]; reflexivity.
Qed.

(** The system-library branch, when it returns, has asked pkg-config five
    times. *)
Lemma use_system_requests (H : host) (s : state H) :
  result_of (use_system H s) = Ok tt ->
  popen_requests (trace_of (use_system H s)) =
    [ call_request (version_check_command "libcares"
                      (libcares_version_required (st_self s)));
      call_request (parse_command "--libs-only-L" "libcares");
      call_request (parse_command "--cflags-only-I" "libcares");
      call_request (parse_command "--libs-only-L" "libcares");
      call_request (parse_command "--libs-only-l" "libcares") ].
Proof.
  unfold use_system. rewrite bind_attr.
  pose proof (version_check_one_request H "libcares"
                (libcares_version_required (st_self s)) s) as R0.
  destruct (pkg_config_version_check H "libcares" _ s) as [[[[]|x] s0] t0] eqn:E0;
    [rewrite (bind_ok _ _ _ _ _ _ _ E0)|by rewrite (bind_raise _ _ _ _ _ _ _ E0)].
  pose proof (pkg_config_parse_one_request H "--libs-only-L" "libcares" s0) as R1.
  destruct (pkg_config_parse H "--libs-only-L" "libcares" s0) as [[[l1|x] s1] t1] eqn:E1;
    [rewrite (bind_ok _ _ _ _ _ _ _ E1)|by rewrite (bind_raise _ _ _ _ _ _ _ E1)].
  pose proof (pkg_config_parse_one_request H "--cflags-only-I" "libcares" s1) as R2.
  destruct (pkg_config_parse H "--cflags-only-I" "libcares" s1) as [[[l2|x] s2] t2] eqn:E2;
    [rewrite (bind_ok _ _ _ _ _ _ _ E2)|by rewrite (bind_raise _ _ _ _ _ _ _ E2)].
  pose proof (pkg_config_parse_one_request H "--libs-only-L" "libcares" s2) as R3.
  destruct (pkg_config_parse H "--libs-only-L" "libcares" s2) as [[[l3|x] s3] t3] eqn:E3;
    [rewrite (bind_ok _ _ _ _ _ _ _ E3)|by rewrite (bind_raise _ _ _ _ _ _ _ E3)].
  pose proof (pkg_config_parse_one_request H "--libs-only-l" "libcares" s3) as R4.
  destruct (pkg_config_parse H "--libs-only-l" "libcares" s3) as [[[l4|x] s4] t4] eqn:E4;
    [rewrite (bind_ok _ _ _ _ _ _ _ E4)|by rewrite (bind_raise _ _ _ _ _ _ _ E4)].
  intros _. unfold trace_of in *; cbn [snd] in *.
  unfold compiler_do. rewrite bind_emit.
  destruct (nonempty l4), (nonempty l3), (nonempty (_ ++ _)), (nonempty l1);
    cbn; rewrite !popen_requests_app, R0, R1, R2, R3, R4; reflexivity.
Qed.

(** X25 -- A system-library build that returns has started exactly five
    subprocesses, in this order: the version check, then the queries
    [--libs-only-L] (for the runtime library directories), [--cflags-only-I],
    [--libs-only-L] again (for the library directories) and [--libs-only-l]. *)
Theorem system_build_queries (H : host) (s : state H) :
  use_system_libcares (st_self s) = 1 ->
  result_of (build_extensions H s) = Ok tt ->
  popen_requests (trace_of (build_extensions H s)) =
    map call_request
      [ "pkg-config --print-errors --exists " +:+ dq +:+ "libcares >= "
          +:+ libcares_version_required (st_self s) +:+ dq;
        "pkg-config --libs-only-L libcares";
        "pkg-config --cflags-only-I libcares";
        "pkg-config --libs-only-L libcares";
        "pkg-config --libs-only-l libcares" ].
Proof.
  intros Hsys Hok. revert Hok.
  rewrite build_extensions_eq. cbn zeta. rewrite Hsys.
  cbn [Z.eqb Pos.eqb when ret macro_events].
  pose proof (use_system_requests H s) as Hreq.
  destruct (use_system H s) as [[[[]|x] s1] t1]; [|discriminate].
  specialize (Hreq eq_refl). unfold trace_of in Hreq; cbn [snd] in Hreq.
  destruct (extensions (st_self s)); [discriminate|]. intros _.
  unfold trace_of; cbn [snd app]. rewrite !popen_requests_app, Hreq.
  assert (Hrest : forall ctype,
             popen_requests (mingw_events H ctype) = [] /\
             popen_requests
               (EvCompiler (add_include_dir (bundled_include_dir H))
                  :: platform_events H ctype
                  ++ [EvBuildExtensions (configured H (st_self s))]) = []).
  { intros ctype. unfold mingw_events, platform_events.
    destruct (String.eqb ctype "mingw32"), (Py.startswith "linux" (sys_platform H)),
      (String.eqb (sys_platform H) "win32"), (String.eqb ctype "msvc"); by split. }
  destruct (Hrest (compiler_type (st_self s))) as [-> ->].
  reflexivity.
Qed.

Lemma system_build_queries_witness :
  let s := start (tt : world new_libcares_host) (fresh_command 1 0 "unix") in
  map req_args (popen_requests (trace_of (build_extensions new_libcares_host s))) =
    [ ArgStr ("pkg-config --print-errors --exists " +:+ dq +:+ "libcares >= 1.11" +:+ dq);
      ArgStr "pkg-config --libs-only-L libcares";
      ArgStr "pkg-config --cflags-only-I libcares";
      ArgStr "pkg-config --libs-only-L libcares";
      ArgStr "pkg-config --libs-only-l libcares" ].
Proof.
  cbn zeta.
  rewrite (system_build_queries new_libcares_host
             (start (tt : world new_libcares_host) (fresh_command 1 0 "unix"))
             eq_refl eq_refl).
  reflexivity.
Defined.





(** ** The option tables *)

(** X28 -- The class body does not copy the option tables of [build_ext]:
    the new class's [user_options] and [boolean_options] are the very list
    objects of the base class, and after the class is defined the base
    class's own lists end with the two new options, so every [build_ext]
    command sees them.  No other list is touched. *)
Theorem class_body_extends_base_tables (build_ext : option_tables)
    (heap : gmap positive (list table_entry)) (users booleans : list table_entry) :
  user_options build_ext <> boolean_options build_ext ->
  heap !! user_options build_ext = Some users ->
  heap !! boolean_options build_ext = Some booleans ->
  exists after,
    class_body build_ext heap = Some (build_ext, after) /\
    after !! user_options build_ext = Some (users ++ cares_user_options) /\
    after !! boolean_options build_ext = Some (booleans ++ cares_boolean_options) /\
    (forall other, other <> user_options build_ext -> other <> boolean_options build_ext ->
       after !! other = heap !! other).
Proof.
  intros Hne Hu Hb. unfold class_body, list_extend. rewrite Hu.
  rewrite lookup_insert_ne by done. rewrite Hb.
  eexists. split; [by destruct build_ext|]. split.
  - rewrite lookup_insert_ne by done. by rewrite lookup_insert_eq.
  - split; [by rewrite lookup_insert_eq|].
    intros other Hou Hob. by rewrite !lookup_insert_ne.
Qed.

Lemma class_body_extends_base_tables_witness :
  exists after,
    class_body distutils_tables distutils_heap = Some (distutils_tables, after) /\
    after !! 1%positive
      = Some [ OptionTuple "build-lib=" (Some "b") "directory for compiled extension modules";
               OptionTuple "force" (Some "f") "forcibly build everything";
               OptionTuple "cares-clean-compile" None "Clean c-ares tree before compilation";
               OptionTuple "use-system-libcares" None
                 "Use the system provided libcares, instead of the bundled one" ].
Proof.
  destruct (class_body_extends_base_tables distutils_tables distutils_heap
              [OptionTuple "build-lib=" (Some "b") "directory for compiled extension modules";
               OptionTuple "force" (Some "f") "forcibly build everything"]
              [OptionName "inplace"; OptionName "force"])
    as (after & Hbody & Husers & _).
  - discriminate.
  - vm_compute. reflexivity.
  - vm_compute. reflexivity.
  - exists after. split; [exact Hbody|exact Husers].
Defined.
